(** * libTAS: the linTAS controller and the thread registry

    A shallow embedding of [src/linTAS/main.c] (the controller's main loop
    and [proceed_command]) together with the thread-registry operations
    behind the entry points declared in [src/libTAS/threadwrappers.h].

    Platform: LP64 Linux, little endian.  [unsigned int] is 4 bytes,
    [unsigned long] is 8 bytes, [char] is 1 byte. *)

From Stdlib Require Import ZArith List String Ascii Lia Bool.
From Stdlib Require Import Strings.Byte.
From stdpp Require Import base option list gmap.
Import ListNotations.

Local Open Scope Z_scope.

(** ** Bytes and little-endian fixed-width fields *)

Module Bytes.

Definition byte_of_Z (z : Z) : byte :=
  default Byte.x00 (Byte.of_N (Z.to_N (z mod 256))).

Definition Z_of_byte (b : byte) : Z := Z.of_N (Byte.to_N b).

(** The [n] bytes of the object representation of an unsigned integer,
    least significant byte first. *)
Fixpoint le_encode (n : nat) (x : Z) : list byte :=
  match n with
  | O => []
  | S n' => byte_of_Z x :: le_encode n' (x / 256)
  end.

Fixpoint le_decode (bs : list byte) : Z :=
  match bs with
  | [] => 0
  | b :: bs' => Z_of_byte b + 256 * le_decode bs'
  end.

(** Writing [got] over the beginning of an object whose bytes are [old]:
    what [recv] and [scanf] do to the buffer they are handed. *)
Definition overwrite (old got : list byte) : list byte :=
  got ++ drop (length got) old.

Definition UINT_MOD : Z := 2 ^ 32.
Definition ULONG_MOD : Z := 2 ^ 64.

(** Conversion to [unsigned int] and to [unsigned long]. *)
Definition to_uint (z : Z) : Z := z mod UINT_MOD.
Definition to_ulong (z : Z) : Z := z mod ULONG_MOD.

(** C's [!x] on an integer. *)
Definition lnot (z : Z) : Z := if z =? 0 then 1 else 0.

End Bytes.
Export Bytes.

(** ** The controller: [src/linTAS/main.c] *)

Module Controller.

(** Modelled from the spec: [struct TasFlags] is declared in
    [shared/tasflags.h], which is absent.  [main.c] uses two of its fields:
    [running], tested and negated as a C truth value, and [speed_divisor],
    printed with [%u] and sent as [sizeof(unsigned int)] bytes (the spec's
    "4-byte unsigned int").  [speed_divisor] holds the 32-bit pattern read
    as unsigned. *)
Record TasFlags := mkTasFlags {
  running : Z;
  speed_divisor : Z
}.

(** A whitespace-delimited word of standard input: its characters, and what
    libc's [%d] and [%lu] conversions make of it ([None]: matching
    failure). *)
Record word := mkWord {
  text : list byte;
  as_int : option Z;
  as_ulong : option Z
}.

Inductive XEvent :=
  | KeyPress (ks : Z)   (* the KeySym that XkbKeycodeToKeysym resolves *)
  | OtherEvent.

(** What happened on the socket, oldest first. *)
Inductive sock_event :=
  | Sent (fd : Z) (data : list byte)
  | Received (fd : Z) (requested : nat) (data : list byte)
  | Closed (fd : Z).

(** The program's globals and the environment it talks to. *)
Record world := mkWorld {
  (* globals of main.c *)
  tasflags : TasFlags;
  frame_counter : Z;                 (* unsigned long *)
  keyboard_state : list byte;        (* char[32] *)
  (* hotkeys[HOTKEY_FRAMEADVANCE] and hotkeys[HOTKEY_PLAYPAUSE]; the
     indices and default_hotkeys live in keymapping.h, which is absent *)
  hotkey_frameadvance : Z;
  hotkey_playpause : Z;
  (* standard streams *)
  stdin : list word;
  stdout : list string;
  (* the socket: chunks still to arrive, and the record of calls *)
  sock_in : list (list byte);
  sock_log : list sock_event;
  (* the X server: one batch of pending events per main-loop iteration,
     and byte i of the keymap that the q-th XQueryKeymap call returns *)
  x_events : list (list XEvent);
  x_keyboard : nat -> nat -> byte;
  x_queries : nat;
  (* contents of proceed_command's uninitialised stack frame:
     filename_buffer at 0..1023, answer at 1024 *)
  stack_junk : nat -> byte
}.

Definition set_tasflags (t : TasFlags) (w : world) : world :=
  mkWorld t (frame_counter w) (keyboard_state w) (hotkey_frameadvance w)
    (hotkey_playpause w) (stdin w) (stdout w) (sock_in w) (sock_log w)
    (x_events w) (x_keyboard w) (x_queries w) (stack_junk w).

Definition set_frame_counter (c : Z) (w : world) : world :=
  mkWorld (tasflags w) c (keyboard_state w) (hotkey_frameadvance w)
    (hotkey_playpause w) (stdin w) (stdout w) (sock_in w) (sock_log w)
    (x_events w) (x_keyboard w) (x_queries w) (stack_junk w).

Definition set_keyboard_state (k : list byte) (w : world) : world :=
  mkWorld (tasflags w) (frame_counter w) k (hotkey_frameadvance w)
    (hotkey_playpause w) (stdin w) (stdout w) (sock_in w) (sock_log w)
    (x_events w) (x_keyboard w) (x_queries w) (stack_junk w).

Definition set_stdin (i : list word) (w : world) : world :=
  mkWorld (tasflags w) (frame_counter w) (keyboard_state w)
    (hotkey_frameadvance w) (hotkey_playpause w) i (stdout w) (sock_in w)
    (sock_log w) (x_events w) (x_keyboard w) (x_queries w) (stack_junk w).

Definition set_stdout (o : list string) (w : world) : world :=
  mkWorld (tasflags w) (frame_counter w) (keyboard_state w)
    (hotkey_frameadvance w) (hotkey_playpause w) (stdin w) o (sock_in w)
    (sock_log w) (x_events w) (x_keyboard w) (x_queries w) (stack_junk w).

Definition set_sock (i : list (list byte)) (l : list sock_event) (w : world)
  : world :=
  mkWorld (tasflags w) (frame_counter w) (keyboard_state w)
    (hotkey_frameadvance w) (hotkey_playpause w) (stdin w) (stdout w) i l
    (x_events w) (x_keyboard w) (x_queries w) (stack_junk w).

Definition set_x (e : list (list XEvent)) (q : nat) (w : world) : world :=
  mkWorld (tasflags w) (frame_counter w) (keyboard_state w)
    (hotkey_frameadvance w) (hotkey_playpause w) (stdin w) (stdout w)
    (sock_in w) (sock_log w) e (x_keyboard w) q (stack_junk w).

(** *** A small monad for the code's effects

    [OutOfFuel w]: a loop of the source was still running in world [w] when
    the iteration budget ended.  [Undefined]: the source has undefined
    behaviour here (a write past the end of [filename_buffer]). *)
Inductive outcome (A : Type) :=
  | Done (a : A) (w : world)
  | OutOfFuel (w : world)
  | Undefined.
Arguments Done {A} a w.
Arguments OutOfFuel {A} w.
Arguments Undefined {A}.

Definition io (A : Type) : Type := world -> outcome A.

Definition ret {A} (a : A) : io A := fun w => Done a w.

Definition bind {A B} (m : io A) (k : A -> io B) : io B :=
  fun w =>
    match m w with
    | Done a w' => k a w'
    | OutOfFuel w' => OutOfFuel w'
    | Undefined => Undefined
    end.

Notation "x <- m ;; k" := (bind m (fun x => k))
  (at level 100, m at next level, right associativity).
Notation "m ;; k" := (bind m (fun _ => k))
  (at level 100, right associativity).

Definition gets {A} (f : world -> A) : io A := fun w => Done (f w) w.
Definition modify (f : world -> world) : io unit := fun w => Done tt (f w).
Definition out_of_fuel {A} : io A := fun w => OutOfFuel w.
Definition undefined {A} : io A := fun _ => Undefined.

(** *** libc, the socket and the X server *)

Definition nl : string := String (ascii_of_nat 10) EmptyString.

Definition printf (s : string) : io unit :=
  modify (fun w => set_stdout (stdout w ++ [s]) w).

(** [send(fd, data, length data, 0)]; the return value is never looked at. *)
Definition send (fd : Z) (data : list byte) : io unit :=
  modify (fun w => set_sock (sock_in w) (sock_log w ++ [Sent fd data]) w).

(** [recv(fd, buf, n, 0)] hands over at most [n] bytes of the chunk that
    arrives next and leaves the rest of it queued.  No chunk, or an empty
    one, is a return of 0 or -1: nothing is written to [buf].  The result is
    the bytes written to the beginning of [buf]. *)
Definition recv (fd : Z) (n : nat) : io (list byte) :=
  fun w =>
    match sock_in w with
    | [] => Done [] (set_sock [] (sock_log w ++ [Received fd n []]) w)
    | chunk :: rest =>
        let got := take n chunk in
        let queued := match drop n chunk with
                      | [] => rest
                      | more => more :: rest
                      end in
        Done got (set_sock queued (sock_log w ++ [Received fd n got]) w)
    end.

Definition close (fd : Z) : io unit :=
  modify (fun w => set_sock (sock_in w) (sock_log w ++ [Closed fd]) w).

Definition EOF : Z := -1.

(** [scanf] with one numeric conversion.  Returns [scanf]'s return value
    and the converted number, if any: 1 and the number when the next word
    converts (the word is consumed), 0 on a matching failure (the word stays
    in the input), [EOF] at the end of input. *)
Definition scanf_num (conv : word -> option Z) : io (Z * option Z) :=
  fun w =>
    match stdin w with
    | [] => Done (EOF, None) w
    | t :: rest =>
        match conv t with
        | Some v => Done (1, Some v) (set_stdin rest w)
        | None => Done (0, None) w
        end
    end.

(** [scanf("%s", buf)]: the next word and a terminating NUL are written
    over the beginning of [buf]; a word that does not fit overruns it.
    Returns [scanf]'s return value and the new contents of [buf]. *)
Definition scanf_s (buf : list byte) : io (Z * list byte) :=
  fun w =>
    match stdin w with
    | [] => Done (EOF, buf) w
    | t :: rest =>
        if (length (text t) <? length buf)%nat
        then Done (1, overwrite buf (text t ++ [x00])) (set_stdin rest w)
        else Undefined
    end.

(** [XQueryKeymap(display, keyboard_state)]: 32 bytes from the server. *)
Definition XQueryKeymap : io unit :=
  modify (fun w =>
    set_keyboard_state (map (x_keyboard w (x_queries w)) (seq 0 32))
      (set_x (x_events w) (S (x_queries w)) w)).

(** The events that [XPending]/[XNextEvent] hand over in one iteration. *)
Definition pending_events : io (list XEvent) :=
  fun w =>
    match x_events w with
    | [] => Done [] w
    | batch :: later => Done batch (set_x later (x_queries w) w)
    end.

(** *** main.c *)

(** [tasflags.running = !tasflags.running;] *)
Definition toggle_running : io unit :=
  modify (fun w =>
    set_tasflags (mkTasFlags (lnot (running (tasflags w)))
                             (speed_divisor (tasflags w))) w).

Definition set_speed_divisor (d : Z) : io unit :=
  modify (fun w => set_tasflags (mkTasFlags (running (tasflags w)) d) w).

(** Lines 175-180: [do { printf; scanf("%d", &tasflags.speed_divisor); }
    while (!tasflags.speed_divisor);] *)
Fixpoint speed_divisor_loop (fuel : nat) : io unit :=
  match fuel with
  | O => out_of_fuel
  | S fuel' =>
      printf "Enter non-null speed divisor factor: ";;
      r <- scanf_num as_int;;
      match snd r with
      | Some v => set_speed_divisor (to_uint v)
      | None => ret tt
      end;;
      d <- gets (fun w => speed_divisor (tasflags w));;
      if d =? 0 then speed_divisor_loop fuel' else ret tt
  end.

(** Lines 191-193: [do printf; while (!scanf("%lu", &first_frame));] *)
Fixpoint first_frame_loop (fuel : nat) (first_frame : Z) : io Z :=
  match fuel with
  | O => out_of_fuel
  | S fuel' =>
      printf "Enter first frame to record: ";;
      r <- scanf_num as_ulong;;
      let first_frame' := match snd r with
                          | Some v => to_ulong v
                          | None => first_frame
                          end in
      if fst r =? 0 then first_frame_loop fuel' first_frame'
      else ret first_frame'
  end.

Definition proceed_command (fuel : nat) (command : Z) (socket_fd : Z)
  : io Z :=
  if command =? 0 then ret 0
  else if 11 <? command then
    printf ("This command does not exist." ++ nl);; ret 0
  else
    send socket_fd (le_encode 4 command);;
    junk <- gets stack_junk;;
    let filename_buffer := map junk (seq 0 1024) in
    match command with
    | 7 => toggle_running
    | 8 =>
        ks <- gets keyboard_state;;
        send socket_fd ks;;
        got <- recv socket_fd 8;;
        modify (fun w =>
          set_frame_counter
            (le_decode (overwrite (le_encode 8 (frame_counter w)) got)) w)
    | 9 =>
        set_speed_divisor 0;;
        speed_divisor_loop fuel;;
        d <- gets (fun w => speed_divisor (tasflags w));;
        send socket_fd (le_encode 4 d)
    | 10 =>
        printf "Enter filename to save inputs in: ";;
        r <- scanf_s filename_buffer;;
        send socket_fd (snd r);;
        first_frame <- first_frame_loop fuel 0;;
        send socket_fd (le_encode 8 first_frame)
    | 11 =>
        printf "Enter filename from which to load inputs: ";;
        r <- scanf_s filename_buffer;;
        send socket_fd (snd r);;
        got <- recv socket_fd 1;;
        let answer := overwrite [junk 1024%nat] got in
        if le_decode answer =? 0
        then printf ("libTAS couldn’t load inputs." ++ nl)
        else ret tt
    | _ => ret tt
    end;;
    ret 0.

(** Lines 96-109: one event of the inner [while (XPending(display) > 0)]. *)
Definition handle_event (ev : XEvent) (command : Z) : io Z :=
  match ev with
  | KeyPress ks =>
      fa <- gets hotkey_frameadvance;;
      command' <- (if ks =? fa then XQueryKeymap;; ret 8 else ret command);;
      pp <- gets hotkey_playpause;;
      (if ks =? pp then toggle_running else ret tt);;
      ret command'
  | OtherEvent => ret command
  end.

Fixpoint handle_events (evs : list XEvent) (command : Z) : io Z :=
  match evs with
  | [] => ret command
  | ev :: evs' => c <- handle_event ev command;; handle_events evs' c
  end.

(** Lines 118-121: the command the next iteration starts with. *)
Definition next_command (w : world) : Z :=
  if running (tasflags w) =? 0 then 0 else 8.

(** Lines 115-121: [None] is the [break]. *)
Definition dispatch (fuel : nat) (command : Z) (socket_fd : Z)
  : io (option Z) :=
  rc <- proceed_command fuel command socket_fd;;
  if rc =? 0 then c <- gets next_command;; ret (Some c) else ret None.

(** Lines 84-113: the events of this iteration, then the keyboard when
    running.  Returns the command as the hotkeys leave it. *)
Definition poll (command : Z) : io Z :=
  evs <- pending_events;;
  command' <- handle_events evs command;;
  r <- gets (fun w => running (tasflags w));;
  (if r =? 0 then ret tt else XQueryKeymap);;
  ret command'.

(** Lines 84-121: the body of [while (1)]. *)
Definition main_iteration (fuel : nat) (command : Z) (socket_fd : Z)
  : io (option Z) :=
  command' <- poll command;;
  dispatch fuel command' socket_fd.

(** Lines 82-125: the loop, then [close(socket_fd); return 0;].
    [iterations] bounds the passes through [while (1)], [fuel] the passes
    through each loop of [proceed_command]. *)
Fixpoint main_loop (iterations fuel : nat) (command : Z) (socket_fd : Z)
  : io Z :=
  match iterations with
  | O => out_of_fuel
  | S n =>
      next <- main_iteration fuel command socket_fd;;
      match next with
      | Some c => main_loop n fuel c socket_fd
      | None => close socket_fd;; ret 0
      end
  end.

(** *** Vocabulary for the statements *)

(** The bytes the next [recv] finds on the socket. *)
Definition arriving (w : world) : list byte := hd [] (sock_in w).

(** Is the KeySym [k] pressed somewhere in this batch of events? *)
Definition presses (k : Z) (evs : list XEvent) : bool :=
  existsb (fun ev => match ev with
                     | KeyPress ks => ks =? k
                     | OtherEvent => false
                     end) evs.

(** A word that [%d] converts to a number stored as 0 in
    [tasflags.speed_divisor]. *)
Definition rejected (t : word) : bool :=
  match as_int t with
  | Some v => to_uint v =? 0
  | None => false
  end.

(** The next word, if there is one, fits [filename_buffer] with its NUL. *)
Definition filename_fits (w : world) : bool :=
  match stdin w with
  | [] => true
  | t :: _ => (length (text t) <? 1024)%nat
  end.

(** [w'] differs from [w] at most in the running flag, the keyboard
    snapshot and the X server's queue: nothing was read, printed, sent or
    received in between. *)
Definition same_io (w w' : world) : Prop :=
  frame_counter w' = frame_counter w /\
  speed_divisor (tasflags w') = speed_divisor (tasflags w) /\
  hotkey_frameadvance w' = hotkey_frameadvance w /\
  hotkey_playpause w' = hotkey_playpause w /\
  stdin w' = stdin w /\
  stdout w' = stdout w /\
  sock_in w' = sock_in w /\
  sock_log w' = sock_log w /\
  stack_junk w' = stack_junk w /\
  (keyboard_state w' = keyboard_state w \/
   length (keyboard_state w') = 32%nat).

(** The world after one pass through the body of the divisor loop in which
    [%d] consumed a word and stored [d], leaving [rest] to be read. *)
Definition entered (d : Z) (rest : list word) (w : world) : world :=
  set_tasflags (mkTasFlags (running (tasflags w)) d)
    (set_stdin rest
       (set_stdout (stdout w ++ ["Enter non-null speed divisor factor: "%string])
          w)).

(** The world in which the divisor loop starts: opcode 9 sent, divisor
    reset. *)
Definition divisor_reset (fd : Z) (w : world) : world :=
  set_tasflags (mkTasFlags (running (tasflags w)) 0)
    (set_sock (sock_in w) (sock_log w ++ [Sent fd (le_encode 4 9)]) w).

(** The command that an iteration started with [command] hands to
    [proceed_command]: 8 when the frame-advance hotkey is among the
    pending events. *)
Definition dispatched (command : Z) (w : world) : Z :=
  if presses (hotkey_frameadvance w) (hd [] (x_events w)) then 8
  else command.

(** Wherever the run stopped (at its end, or inside a loop when the budget
    ended), the component [f] of the world is [v]. *)
Definition stops_with {A B} (f : world -> B) (o : outcome A) (v : B) : Prop :=
  match o with
  | Done _ w' | OutOfFuel w' => f w' = v
  | Undefined => True
  end.

(** [m] leaves the component [f] of the world as it found it. *)
Definition keeps {A B} (f : world -> B) (m : io A) : Prop :=
  forall w, stops_with f (m w) (f w).

End Controller.

(** ** The thread registry behind [pthread_join] and [pthread_detach]

    [threadwrappers.h] only declares the overriding entry points; their
    bodies and the registry they consult are not among the sources. *)

Module Registry.

(** Modelled from the spec: the states of a ThreadRecord (section 3; the
    record type is not among the sources). *)
Inductive thread_state :=
  | CREATED | RUNNING | WAITING | DETACHED | ZOMBIE | JOINED | CANCELLED.

Inductive cancel_state := ENABLED | DISABLED.
Inductive cancel_type := DEFERRED | ASYNCHRONOUS.

(** Modelled from the spec: ThreadRecord (section 3; the record type is not
    among the sources).  The identity is the key under which the registry
    holds the record.  [joiner] is the caller of the join invoked on the
    record, if one has been: it is what lets the registry tell "already
    joined by another caller" (section 4.2) and keep "exactly one of join,
    detach may ever be invoked" (section 3) while that join is still
    blocked. *)
Record ThreadRecord := mkThreadRecord {
  state : thread_state;
  detached : bool;
  cancelstate : cancel_state;
  canceltype : cancel_type;
  cancel_pending : bool;
  start_routine : Z;     (* opaque *)
  arg : Z;               (* opaque *)
  exit_status : Z;       (* what the start routine returned, once ZOMBIE *)
  joiner : option Z
}.

Definition set_state (s : thread_state) (r : ThreadRecord) : ThreadRecord :=
  mkThreadRecord s (detached r) (cancelstate r) (canceltype r)
    (cancel_pending r) (start_routine r) (arg r) (exit_status r) (joiner r).

Definition set_detached (r : ThreadRecord) : ThreadRecord :=
  mkThreadRecord DETACHED true (cancelstate r) (canceltype r)
    (cancel_pending r) (start_routine r) (arg r) (exit_status r) (joiner r).

Definition set_joiner (caller : Z) (r : ThreadRecord) : ThreadRecord :=
  mkThreadRecord (state r) (detached r) (cancelstate r) (canceltype r)
    (cancel_pending r) (start_routine r) (arg r) (exit_status r)
    (Some caller).

Inductive error :=
  | UsageError       (* usage-contract violation *)
  | NoSuchThread.    (* the id has no record *)

(** What an entry point hands back through its return value: success, an
    error code, or nothing yet because the caller is suspended. *)
Inductive reply (A : Type) :=
  | Returned (a : A)
  | Failed (e : error)
  | Blocked.
Arguments Returned {A} a.
Arguments Failed {A} e.
Arguments Blocked {A}.

(** A join has been invoked on the record: it is JOINED, or a caller is
    blocked in a join on it. *)
Definition is_joined (r : ThreadRecord) : bool :=
  match joiner r with Some _ => true | None => false end ||
  match state r with JOINED => true | _ => false end.

Definition is_detached (r : ThreadRecord) : bool :=
  detached r || match state r with DETACHED => true | _ => false end.

(** Modelled from the spec: [mark_waiting(id)] and [mark_running(id)] of
    section 4.2, "called ... around suspension points" (their bodies are not
    among the sources). *)
Definition mark_waiting (id : Z) (reg : gmap Z ThreadRecord)
  : gmap Z ThreadRecord :=
  alter (set_state WAITING) id reg.

Definition mark_running (id : Z) (reg : gmap Z ThreadRecord)
  : gmap Z ThreadRecord :=
  alter (set_state RUNNING) id reg.

(** Modelled from the spec: [detach(id)] of section 4.2 (the body of
    [pthread_detach] is not among the sources) -- "fails if already joined
    or already detached"; otherwise the record becomes DETACHED with its
    detached flag set. *)
Definition detach (id : Z) (reg : gmap Z ThreadRecord)
  : reply unit * gmap Z ThreadRecord :=
  match reg !! id with
  | None => (Failed NoSuchThread, reg)
  | Some r =>
      if is_joined r || is_detached r then (Failed UsageError, reg)
      else (Returned tt, <[id := set_detached r]> reg)
  end.

(** Modelled from the spec: [join(id)] of section 4.2, invoked by the thread
    [caller] (the body of [pthread_join] is not among the sources) --
    "blocks the calling thread's observable registry state until the target
    record reaches ZOMBIE, then transitions it to JOINED and returns its
    exit status; fails if already detached or already joined by another
    caller".  A join on a record that is not yet ZOMBIE leaves the caller on
    the record and marks the caller as waiting; [join_wake] is how it goes
    on. *)
Definition join (caller id : Z) (reg : gmap Z ThreadRecord)
  : reply Z * gmap Z ThreadRecord :=
  match reg !! id with
  | None => (Failed NoSuchThread, reg)
  | Some r =>
      if is_joined r || is_detached r then (Failed UsageError, reg)
      else match state r with
           | ZOMBIE =>
               (Returned (exit_status r),
                <[id := set_joiner caller (set_state JOINED r)]> reg)
           | _ =>
               (Blocked, mark_waiting caller (<[id := set_joiner caller r]> reg))
           end
  end.

(** Modelled from the spec: the second half of [join(id)], for the caller
    that is blocked in it: once the target record has reached ZOMBIE it
    becomes JOINED, the caller runs again and gets the exit status; until
    then the caller stays blocked. *)
Definition join_wake (caller id : Z) (reg : gmap Z ThreadRecord)
  : reply Z * gmap Z ThreadRecord :=
  match reg !! id with
  | None => (Failed NoSuchThread, reg)
  | Some r =>
      if bool_decide (joiner r = Some caller) then
        match state r with
        | ZOMBIE =>
            (Returned (exit_status r),
             mark_running caller (<[id := set_state JOINED r]> reg))
        | JOINED => (Failed UsageError, reg)
        | _ => (Blocked, reg)
        end
      else (Failed UsageError, reg)
  end.

End Registry.

(** ** Concrete worlds used by the examples *)

Module Samples.
Import Controller Registry.

(** A paused controller, divisor 1, nothing typed, nothing on the socket;
    the hotkeys are the KeySyms of [v] and space. *)
Definition w0 : world :=
  mkWorld (mkTasFlags 0 1) 0 (repeat x00 32) 118 32 [] [] [] [] []
    (fun _ _ => x00) 0 (fun _ => xff).

(** The word that [%d] and [%lu] read as [z]. *)
Definition typed (t : list byte) (z : Z) : word := mkWord t (Some z) (Some z).

(** The frame counter at 5, no response on the socket. *)
Definition w_silent : world := set_frame_counter 5 w0.

(** The response 01 02 00 00 00 00 00 00 (513) is on the socket. *)
Definition w_answered : world :=
  set_sock [[x01; x02; x00; x00; x00; x00; x00; x00]] [] w0.

(** The user types 0, 0, -1 and 7. *)
Definition w_typing : world :=
  set_stdin [typed [x30] 0; typed [x30] 0; typed [x2d; x31] (-1);
             typed [x37] 7] w0.

(** The user types 0 and then 7; the divisor is 1 beforehand. *)
Definition w_zero_first : world :=
  set_stdin [typed [x30] 0; typed [x37] 7] w0.

(** The user types the filename "ab"; the reply on the socket is flag 0. *)
Definition w_load : world :=
  set_sock [[x00]] [] (set_stdin [mkWord [x61; x62] None None] w0).

(** A running controller. *)
Definition w_running : world := set_tasflags (mkTasFlags 1 1) w0.

Definition zombie : ThreadRecord :=
  mkThreadRecord ZOMBIE false ENABLED DEFERRED false 0 0 42 None.

Definition worker : ThreadRecord :=
  mkThreadRecord RUNNING false ENABLED DEFERRED false 0 0 0 None.

Definition reg0 : gmap Z ThreadRecord := <[7 := zombie]> (<[8 := worker]> ∅).

End Samples.

(** ** Vocabulary for the rest of [main.c]'s behaviour *)

Module Behaviour.
Import Controller.

(** Wherever a run of [m] stops, the world it stops in is related by [R] to
    the one it started in. *)
Definition relates {A} (R : world -> world -> Prop) (m : io A) : Prop :=
  forall w,
    match m w with
    | Done _ w' | OutOfFuel w' => R w w'
    | Undefined => True
    end.

(** A send or a receive on the socket [fd]; not a close. *)
Definition on_socket (fd : Z) (ev : sock_event) : Prop :=
  match ev with
  | Sent fd' _ | Received fd' _ _ => fd' = fd
  | Closed _ => False
  end.

(** The record of socket calls of [w'] is that of [w] with sends and
    receives on [fd] added at the end. *)
Definition log_grows (fd : Z) (w w' : world) : Prop :=
  exists tail, sock_log w' = sock_log w ++ tail /\ Forall (on_socket fd) tail.

(** The world once the opcode has gone out (line 158). *)
Definition opcode_sent (command fd : Z) (w : world) : world :=
  set_sock (sock_in w) (sock_log w ++ [Sent fd (le_encode 4 command)]) w.

(** [filename_buffer] as [scanf("%s", filename_buffer)] leaves it when the
    next word fits: the word and its NUL over the uninitialised stack bytes,
    or those bytes alone at the end of input. *)
Definition filename_read (w : world) : list byte :=
  match stdin w with
  | [] => map (stack_junk w) (seq 0 1024)
  | t :: _ => overwrite (map (stack_junk w) (seq 0 1024)) (text t ++ [x00])
  end.

(** The world of commands 10 and 11 once the filename has been asked for
    with [prompt], read and sent (lines 186-188 and 199-201). *)
Definition filename_taken (prompt : string) (command fd : Z) (w : world)
  : world :=
  let w2 := set_stdout (stdout w ++ [prompt]) (opcode_sent command fd w) in
  let w3 := match stdin w with
            | [] => w2
            | _ :: rest => set_stdin rest w2
            end in
  set_sock (sock_in w3) (sock_log w3 ++ [Sent fd (filename_read w)]) w3.

(** The next [scanf("%lu")] fails to match: a word that is not a number. *)
Definition not_a_frame (input : list word) : bool :=
  match input with
  | [] => false
  | t :: _ => match as_ulong t with Some _ => false | None => true end
  end.

(** [answer] as [recv(socket_fd, &answer, 1, 0)] leaves it: the byte that
    arrives, or the uninitialised stack byte when nothing does. *)
Definition answer_read (w : world) : byte :=
  hd (stack_junk w 1024%nat) (take 1 (arriving w)).

(** The next [scanf("%d")] converts nothing: end of input, or a word that
    is not a number. *)
Definition no_number (input : list word) : bool :=
  match input with
  | [] => true
  | t :: _ => match as_int t with Some _ => false | None => true end
  end.

(** Neither hotkey is pressed in this batch of events. *)
Definition quiet (w : world) (evs : list XEvent) : bool :=
  negb (presses (hotkey_frameadvance w) evs) &&
  negb (presses (hotkey_playpause w) evs).

(** [w'] is [w] but for the X server's queue of events. *)
Definition same_but_events (w w' : world) : Prop :=
  tasflags w' = tasflags w /\ frame_counter w' = frame_counter w /\
  keyboard_state w' = keyboard_state w /\
  hotkey_frameadvance w' = hotkey_frameadvance w /\
  hotkey_playpause w' = hotkey_playpause w /\
  stdin w' = stdin w /\ stdout w' = stdout w /\
  sock_in w' = sock_in w /\ sock_log w' = sock_log w /\
  x_keyboard w' = x_keyboard w /\ x_queries w' = x_queries w /\
  stack_junk w' = stack_junk w.

(** The socket calls of successive iterations of a running controller that
    finds the 8-byte [responses] one after the other: each iteration sends
    opcode 8 and the keymap that its [XQueryKeymap], the [q]-th and
    following, returned. *)
Fixpoint exchanges (fd : Z) (keyboard : nat -> nat -> byte) (q : nat)
    (responses : list (list byte)) : list sock_event :=
  match responses with
  | [] => []
  | r :: rs =>
      Sent fd [x08; x00; x00; x00] ::
      Sent fd (map (keyboard q) (seq 0 32)) ::
      Received fd 8 r :: exchanges fd keyboard (S q) rs
  end.

(** The world once this iteration's batch of events has been handed over
    (lines 92-94). *)
Definition events_taken (w : world) : world :=
  match x_events w with
  | [] => w
  | _ :: later => set_x later (x_queries w) w
  end.

(** The world after [XQueryKeymap(display, keyboard_state)]. *)
Definition queried (w : world) : world :=
  set_keyboard_state (map (x_keyboard w (x_queries w)) (seq 0 32))
    (set_x (x_events w) (S (x_queries w)) w).

(** The world after [tasflags.running = !tasflags.running]. *)
Definition toggled (w : world) : world :=
  set_tasflags (mkTasFlags (lnot (running (tasflags w)))
                           (speed_divisor (tasflags w))) w.

(** The world after an opcode-8 exchange that found the 8-byte response [r]
    on the socket, with the chunks [later] behind it. *)
Definition advanced (fd : Z) (r : list byte) (later : list (list byte))
    (w : world) : world :=
  set_frame_counter (le_decode r)
    (set_sock later
       (sock_log w ++ [Sent fd [x08; x00; x00; x00];
                       Sent fd (keyboard_state w); Received fd 8 r]) w).

(** The pending command and the world at the head of [while (1)], for a
    loop entered in the world [start]: [command = 0] at line 78, and then
    whatever an iteration that does not take the [break] leaves behind. *)
Inductive loop_head (fuel : nat) (fd : Z) (start : world)
  : Z -> world -> Prop :=
  | head_first : loop_head fuel fd start 0 start
  | head_next (command : Z) (w : world) (command' : Z) (w' : world) :
      loop_head fuel fd start command w ->
      main_iteration fuel command fd w = Done (Some command') w' ->
      loop_head fuel fd start command' w'.

(** The globals have the values their C types allow. *)
Definition well_typed (w : world) : Prop :=
  0 <= frame_counter w < ULONG_MOD /\
  0 <= speed_divisor (tasflags w) < UINT_MOD /\
  length (keyboard_state w) = 32%nat.

End Behaviour.

(** ** [main] from its first line *)

Module Startup.
Import Controller.

(** What [main] finds when it starts. *)
Record startup := mkStartup {
  socket_returns : Z;        (* socket(AF_UNIX, SOCK_STREAM, 0) *)
  display_opens : bool;      (* XOpenDisplay(NULL) is not NULL *)
  connect_returns : Z;       (* connect(socket_fd, &addr, ...) *)
  (* DEFAULTFLAGS of shared/tasflags.h and what default_hotkeys of
     keymapping.h stores for the two hotkeys; both headers are absent *)
  DEFAULTFLAGS : TasFlags;
  default_frameadvance : Z;
  default_playpause : Z
}.

(** How [main] ends: [exit(status)] after a message on the standard error,
    or [return status]. *)
Inductive ending :=
  | Exit (status : Z) (stderr : string)
  | Return (status : Z).

Definition set_hotkeys (fa pp : Z) (w : world) : world :=
  mkWorld (tasflags w) (frame_counter w) (keyboard_state w) fa pp (stdin w)
    (stdout w) (sock_in w) (sock_log w) (x_events w) (x_keyboard w)
    (x_queries w) (stack_junk w).

(** Lines 38-126.  The calls that leave no trace in the world
    ([XSetErrorHandler], [nanosleep], [XGetInputFocus], [XSelectInput]) are
    left out. *)
Definition main (s : startup) (iterations fuel : nat) : io ending :=
  if display_opens s then
    printf ("Connecting to libTAS..." ++ nl);;
    if connect_returns s =? 0 then
      printf ("Connected." ++ nl);;
      modify (set_tasflags (DEFAULTFLAGS s));;
      modify (set_hotkeys (default_frameadvance s) (default_playpause s));;
      rc <- main_loop iterations fuel 0 (socket_returns s);;
      ret (Return rc)
    else
      printf ("Couldn’t connect to socket." ++ nl);;
      ret (Return 1)
  else ret (Exit 1 ("Cannot open display" ++ nl)).

End Startup.

(** ** More concrete worlds *)

Module MoreSamples.
Import Controller Startup Samples.

(** The counter is 2^63 + 5 and only two bytes, 01 02, arrive. *)
Definition w_short : world :=
  set_sock [[x01; x02]] [] (set_frame_counter (2 ^ 63 + 5) w0).

(** The user types 0 and then "abc". *)
Definition w_not_a_number : world :=
  set_stdin [typed [x30] 0; mkWord [x61; x62; x63] None None] w0.

(** The user types the filename "ab" and the number 5. *)
Definition w_save : world :=
  set_stdin [mkWord [x61; x62] None None; typed [x35] 5] w0.

(** The user types the filename "ab" and then "abc". *)
Definition w_save_stuck : world :=
  set_stdin [mkWord [x61; x62] None None; mkWord [x61; x62; x63] None None]
    w0.

(** The user types a filename of 1024 letters. *)
Definition w_long_name : world :=
  set_stdin [mkWord (repeat x61 1024) None None] w0.

(** Paused, with two batches of events that are no hotkeys. *)
Definition w_idle_events : world :=
  set_x [[OtherEvent]; [KeyPress 97; OtherEvent]] 0 w0.

(** Running, with the responses 1 and 2 on the socket. *)
Definition w_two_responses : world :=
  set_sock [[x01; x00; x00; x00; x00; x00; x00; x00];
            [x02; x00; x00; x00; x00; x00; x00; x00]] [] w_running.

(** Running, and the play/pause hotkey (space) is pressed. *)
Definition w_pause_key : world := set_x [[OtherEvent; KeyPress 32]] 0 w_running.

(** Paused, and the play/pause hotkey (space) is pressed. *)
Definition w_resume_key : world := set_x [[KeyPress 32]] 0 w0.

(** Paused, and the frame-advance hotkey (v) is pressed. *)
Definition w_step_key : world := set_x [[KeyPress 118; OtherEvent]] 0 w0.

(** A start that finds no display, and one whose connection is refused. *)
Definition s_no_display : startup :=
  mkStartup 3 false 0 (mkTasFlags 0 1) 118 32.
Definition s_refused : startup :=
  mkStartup 3 true (-1) (mkTasFlags 0 1) 118 32.

End MoreSamples.

(** * Properties *)

(** ** Fixed-width fields *)

Section ByteFacts.

Lemma Z_of_byte_range (b : byte) : 0 <= Z_of_byte b < 256.
Proof.
  unfold Z_of_byte. pose proof (Byte.to_N_bounded b). lia.
Qed.

Lemma Z_of_byte_of_Z (z : Z) : Z_of_byte (byte_of_Z z) = z mod 256.
Proof.
  unfold Z_of_byte, byte_of_Z.
  assert (Hr : 0 <= z mod 256 < 256) by (apply Z.mod_pos_bound; lia).
  destruct (Byte.of_N (Z.to_N (z mod 256))) as [b|] eqn:E.
  - simpl. apply Byte.to_of_N in E. rewrite E. lia.
  - apply Byte.of_N_None_iff in E. lia.
Qed.

Lemma length_le_encode (n : nat) (x : Z) : length (le_encode n x) = n.
Proof.
  revert x. induction n as [|n IH]; intros x; simpl; [reflexivity|].
  now rewrite IH.
Qed.

Lemma le_decode_encode (n : nat) (x : Z) :
  le_decode (le_encode n x) = x mod 256 ^ Z.of_nat n.
Proof.
  revert x. induction n as [|n IH]; intros x.
  - simpl. now rewrite Z.mod_1_r.
  - cbn [le_encode le_decode]. rewrite IH, Z_of_byte_of_Z.
    rewrite Nat2Z.inj_succ, Z.pow_succ_r by lia.
    rewrite Z.rem_mul_r by lia. reflexivity.
Qed.

Lemma le_decode_range (bs : list byte) :
  0 <= le_decode bs < 256 ^ Z.of_nat (length bs).
Proof.
  induction bs as [|b bs IH]; cbn [le_decode length]; [lia|].
  rewrite Nat2Z.inj_succ, Z.pow_succ_r by lia.
  pose proof (Z_of_byte_range b). lia.
Qed.

Lemma le_decode_encode_ulong (x : Z) :
  0 <= x < ULONG_MOD -> le_decode (le_encode 8 x) = x.
Proof.
  intros H. rewrite le_decode_encode. apply Z.mod_small. exact H.
Qed.

Lemma le_decode_encode_uint (x : Z) :
  0 <= x < UINT_MOD -> le_decode (le_encode 4 x) = x.
Proof.
  intros H. rewrite le_decode_encode. apply Z.mod_small. exact H.
Qed.

Lemma overwrite_nothing (old : list byte) : overwrite old [] = old.
Proof. reflexivity. Qed.

Lemma overwrite_all (old got : list byte) :
  (length old <= length got)%nat -> overwrite old got = got.
Proof.
  intros H. unfold overwrite. rewrite drop_ge by exact H. apply app_nil_r.
Qed.

Lemma length_overwrite (old got : list byte) :
  (length got <= length old)%nat -> length (overwrite old got) = length old.
Proof.
  intros H. unfold overwrite. rewrite length_app, length_drop. lia.
Qed.

Lemma to_uint_range (z : Z) : 0 <= to_uint z < UINT_MOD.
Proof. apply Z.mod_pos_bound. reflexivity. Qed.

End ByteFacts.

(** ** Frame lemmas for the controller's effects *)

Section Frames.
Import Controller.

Context {B : Type} (f : world -> B).

Lemma keeps_ret {A} (a : A) : keeps f (ret a).
Proof. intros w. reflexivity. Qed.

Lemma keeps_gets {A} (g : world -> A) : keeps f (gets g).
Proof. intros w. reflexivity. Qed.

Lemma keeps_out_of_fuel {A} : keeps f (@out_of_fuel A).
Proof. intros w. reflexivity. Qed.

Lemma keeps_bind {A C} (m : io A) (k : A -> io C) :
  keeps f m -> (forall a, keeps f (k a)) -> keeps f (bind m k).
Proof.
  intros Hm Hk w. unfold bind. specialize (Hm w).
  destruct (m w) as [a w1|w1|]; [|exact Hm|exact I].
  specialize (Hk a w1). destruct (k a w1); congruence.
Qed.

Lemma keeps_modify (g : world -> world) :
  (forall w, f (g w) = f w) -> keeps f (modify g).
Proof. intros H w. apply H. Qed.

Lemma keeps_printf (s : string) :
  (forall o w, f (set_stdout o w) = f w) -> keeps f (printf s).
Proof. intros H w. apply H. Qed.

Lemma keeps_send (fd : Z) (data : list byte) :
  (forall i l w, f (set_sock i l w) = f w) -> keeps f (send fd data).
Proof. intros H w. apply H. Qed.

Lemma keeps_recv (fd : Z) (n : nat) :
  (forall i l w, f (set_sock i l w) = f w) -> keeps f (recv fd n).
Proof. intros H w. unfold recv. destruct (sock_in w); apply H. Qed.

Lemma keeps_scanf_num (conv : word -> option Z) :
  (forall i w, f (set_stdin i w) = f w) -> keeps f (scanf_num conv).
Proof.
  intros H w. unfold scanf_num. destruct (stdin w) as [|t rest]; [reflexivity|].
  destruct (conv t); [apply H|reflexivity].
Qed.

Lemma keeps_scanf_s (buf : list byte) :
  (forall i w, f (set_stdin i w) = f w) -> keeps f (scanf_s buf).
Proof.
  intros H w. unfold scanf_s. destruct (stdin w) as [|t rest]; [reflexivity|].
  destruct (_ <? _)%nat; [apply H|exact I].
Qed.

Lemma keeps_set_speed_divisor (d : Z) :
  (forall t w, f (set_tasflags t w) = f w) -> keeps f (set_speed_divisor d).
Proof. intros H w. apply H. Qed.

Lemma keeps_toggle_running :
  (forall t w, f (set_tasflags t w) = f w) -> keeps f toggle_running.
Proof. intros H w. apply H. Qed.

Lemma keeps_speed_divisor_loop (fuel : nat) :
  (forall o w, f (set_stdout o w) = f w) ->
  (forall i w, f (set_stdin i w) = f w) ->
  (forall t w, f (set_tasflags t w) = f w) ->
  keeps f (speed_divisor_loop fuel).
Proof.
  intros Ho Hi Ht. induction fuel as [|fuel IH]; cbn [speed_divisor_loop].
  - apply keeps_out_of_fuel.
  - apply keeps_bind; [now apply keeps_printf|intros _].
    apply keeps_bind; [now apply keeps_scanf_num|intros r].
    apply keeps_bind.
    + destruct (snd r); [now apply keeps_set_speed_divisor|apply keeps_ret].
    + intros _. apply keeps_bind; [apply keeps_gets|intros d].
      destruct (d =? 0); [exact IH|apply keeps_ret].
Qed.

Lemma keeps_first_frame_loop (fuel : nat) (first_frame : Z) :
  (forall o w, f (set_stdout o w) = f w) ->
  (forall i w, f (set_stdin i w) = f w) ->
  keeps f (first_frame_loop fuel first_frame).
Proof.
  intros Ho Hi. revert first_frame.
  induction fuel as [|fuel IH]; intros first_frame; cbn [first_frame_loop].
  - apply keeps_out_of_fuel.
  - apply keeps_bind; [now apply keeps_printf|intros _].
    apply keeps_bind; [now apply keeps_scanf_num|intros r].
    destruct (fst r =? 0); [apply IH|apply keeps_ret].
Qed.

End Frames.

(** ** The controller *)

Section ControllerFacts.
Import Controller.

(** Reading a field of an updated world. *)
Ltac fields :=
  cbn [tasflags frame_counter keyboard_state hotkey_frameadvance
       hotkey_playpause stdin stdout sock_in sock_log x_events x_keyboard
       x_queries stack_junk set_tasflags set_frame_counter
       set_keyboard_state set_stdin set_stdout set_sock set_x fst snd].

Ltac frame :=
  repeat first
    [ apply keeps_ret | apply keeps_gets | apply keeps_out_of_fuel
    | apply keeps_bind; [|intros ?]
    | apply keeps_printf; intros; reflexivity
    | apply keeps_send; intros; reflexivity
    | apply keeps_recv; intros; reflexivity
    | apply keeps_scanf_s; intros; reflexivity
    | apply keeps_toggle_running; intros; reflexivity
    | apply keeps_set_speed_divisor; intros; reflexivity
    | apply keeps_speed_divisor_loop; intros; reflexivity
    | apply keeps_first_frame_loop; intros; reflexivity
    | match goal with
      | |- keeps _ (if ?b then _ else _) => destruct b
      end ].

(** A command that passes both guards is one of 1..11 (or, in [Z], a
    negative number, which no [unsigned int] is). *)
Lemma command_cases (command : Z) :
  (command =? 0) = false -> (11 <? command) = false ->
  command < 0 \/
  command = 1 \/ command = 2 \/ command = 3 \/ command = 4 \/ command = 5 \/
  command = 6 \/ command = 7 \/ command = 8 \/ command = 9 \/
  command = 10 \/ command = 11.
Proof. rewrite Z.eqb_neq, Z.ltb_ge. lia. Qed.

Lemma proceed_command_keeps_counter (fuel : nat) (command fd : Z) :
  command <> 8 -> keeps frame_counter (proceed_command fuel command fd).
Proof.
  intros Hne. unfold proceed_command.
  destruct (command =? 0) eqn:E0; [frame|].
  destruct (11 <? command) eqn:E11; [frame|].
  destruct (command_cases command E0 E11)
    as [Hneg|[->|[->|[->|[->|[->|[->|[->|[->|[->|[->| ->]]]]]]]]]]];
    try contradiction; [destruct command; try lia|..]; cbv iota beta; frame.
Qed.

(** What one opcode-8 exchange does, whatever arrives. *)
Lemma advance_run (fuel : nat) (fd : Z) (w : world) :
  exists w',
    proceed_command fuel 8 fd w = Done 0 w' /\
    frame_counter w' =
      le_decode (overwrite (le_encode 8 (frame_counter w))
                           (take 8 (arriving w))) /\
    sock_log w' =
      sock_log w ++ [Sent fd (le_encode 4 8); Sent fd (keyboard_state w);
                     Received fd 8 (take 8 (arriving w))] /\
    tasflags w' = tasflags w /\ keyboard_state w' = keyboard_state w /\
    stdin w' = stdin w /\ stdout w' = stdout w.
Proof.
  unfold proceed_command, arriving.
  change (8 =? 0) with false. change (11 <? 8) with false. cbv iota beta.
  unfold bind, send, gets, modify, recv, ret.
  cbn [sock_in sock_log set_sock keyboard_state stack_junk].
  destruct (sock_in w) as [|chunk rest]; eexists; (split; [reflexivity|]);
    cbn [frame_counter set_frame_counter set_sock sock_log tasflags
         keyboard_state stdin stdout hd];
    rewrite <- !app_assoc; repeat split.
Qed.

Lemma same_io_refl (w : world) : same_io w w.
Proof. unfold same_io. repeat split. now left. Qed.

Lemma same_io_trans (w1 w2 w3 : world) :
  same_io w1 w2 -> same_io w2 w3 -> same_io w1 w3.
Proof.
  unfold same_io. intros (?&?&?&?&?&?&?&?&?&K1) (?&?&?&?&?&?&?&?&?&K2).
  repeat split; try congruence.
  destruct K2 as [K2|K2]; [|now right].
  destruct K1 as [K1|K1]; [left|right]; congruence.
Qed.

Lemma presses_cons (k : Z) (ev : XEvent) (evs : list XEvent) :
  presses k (ev :: evs) = presses k [ev] || presses k evs.
Proof. unfold presses. cbn [existsb]. now rewrite orb_false_r. Qed.

Lemma handle_event_run (ev : XEvent) (command : Z) (w : world) :
  exists w',
    handle_event ev command w =
      Done (if presses (hotkey_frameadvance w) [ev] then 8 else command) w' /\
    same_io w w'.
Proof.
  destruct ev as [ks|]; [|exists w; split; [reflexivity|apply same_io_refl]].
  unfold handle_event, presses, existsb, bind, gets, ret, XQueryKeymap,
    toggle_running, modify.
  rewrite orb_false_r.
  destruct (ks =? hotkey_frameadvance w);
    cbn [hotkey_playpause set_keyboard_state set_x];
    destruct (ks =? hotkey_playpause w);
    eexists; (split; [reflexivity|]); unfold same_io;
    cbn [frame_counter tasflags speed_divisor hotkey_frameadvance
         hotkey_playpause stdin stdout sock_in sock_log stack_junk
         keyboard_state set_tasflags set_keyboard_state set_x];
    repeat split; try (now left); right;
    now rewrite length_map, length_seq.
Qed.

Lemma handle_events_run (evs : list XEvent) (command : Z) (w : world) :
  exists w',
    handle_events evs command w =
      Done (if presses (hotkey_frameadvance w) evs then 8 else command) w' /\
    same_io w w'.
Proof.
  revert command w. induction evs as [|ev evs IH]; intros command w.
  - exists w. split; [reflexivity|apply same_io_refl].
  - destruct (handle_event_run ev command w) as (w1 & E1 & S1).
    destruct (IH (if presses (hotkey_frameadvance w) [ev] then 8 else command)
                 w1) as (w2 & E2 & S2).
    exists w2. split; [|eapply same_io_trans; eassumption].
    cbn [handle_events]. unfold bind. rewrite E1, E2.
    assert (Hfa : hotkey_frameadvance w1 = hotkey_frameadvance w)
      by (destruct S1 as (_&_&H&_); exact H).
    rewrite Hfa, (presses_cons _ ev evs).
    destruct (presses (hotkey_frameadvance w) [ev]),
             (presses (hotkey_frameadvance w) evs); reflexivity.
Qed.

Lemma poll_run (command : Z) (w : world) :
  exists w',
    poll command w =
      Done (dispatched command w) w' /\
    same_io w w'.
Proof.
  unfold dispatched, poll, bind at 1, pending_events.
  assert (Hev : exists w0, match x_events w with
                           | [] => Done [] w
                           | batch :: later =>
                               Done batch (set_x later (x_queries w) w)
                           end = Done (hd [] (x_events w)) w0 /\
                           same_io w w0).
  { destruct (x_events w); eexists; (split; [reflexivity|]);
      unfold same_io; repeat split; now left. }
  destruct Hev as (w0 & -> & S0).
  destruct (handle_events_run (hd [] (x_events w)) command w0)
    as (w1 & E1 & S1).
  assert (Hfa : hotkey_frameadvance w0 = hotkey_frameadvance w)
    by (destruct S0 as (_&_&H&_); exact H).
  rewrite Hfa in E1. unfold bind, gets, ret. rewrite E1.
  destruct (running (tasflags w1) =? 0).
  - exists w1. split; [reflexivity|]. eapply same_io_trans; eassumption.
  - unfold XQueryKeymap, modify. eexists. split; [reflexivity|].
    eapply same_io_trans; [exact S0|]. eapply same_io_trans; [exact S1|].
    unfold same_io. repeat split. right.
    cbn [keyboard_state set_keyboard_state].
    now rewrite length_map, length_seq.
Qed.

Lemma proceed_command_counter (fuel : nat) (command fd : Z) (w : world) :
  0 <= frame_counter w < ULONG_MOD ->
  command <> 8 \/ arriving w = [] ->
  stops_with frame_counter (proceed_command fuel command fd w)
    (frame_counter w).
Proof.
  intros Hfc H. destruct (Z.eq_dec command 8) as [->|Hne].
  - destruct H as [H|H]; [contradiction|].
    destruct (advance_run fuel fd w) as (w' & -> & Hc & _).
    cbn [stops_with]. rewrite Hc, H. cbn [take].
    rewrite overwrite_nothing. now apply le_decode_encode_ulong.
  - now apply proceed_command_keeps_counter.
Qed.

Lemma dispatch_stops {B} (f : world -> B) (fuel : nat) (command fd : Z)
    (w : world) (v : B) :
  stops_with f (proceed_command fuel command fd w) v ->
  stops_with f (dispatch fuel command fd w) v.
Proof.
  unfold dispatch, bind.
  destruct (proceed_command fuel command fd w) as [rc w1|w1|]; try easy.
  destruct (rc =? 0); easy.
Qed.

(** C1 (as the code has it): the frame counter changes only through an
    opcode-8 exchange in which at least one byte of response arrives.
    Processing any other command value, or an opcode 8 for which no byte
    arrives, leaves the stored frame counter as it was, wherever the
    processing stops; and so does a whole iteration of the main loop in
    which no frame-advance hotkey is pressed or no byte arrives. *)
Theorem frame_counter_changes_only_on_advance
    (fuel : nat) (command fd : Z) (w : world) :
  0 <= frame_counter w < ULONG_MOD ->
  command <> 8 \/ arriving w = [] ->
  stops_with frame_counter (proceed_command fuel command fd w)
    (frame_counter w) /\
  (presses (hotkey_frameadvance w) (hd [] (x_events w)) = false \/
   arriving w = [] ->
   stops_with frame_counter (main_iteration fuel command fd w)
     (frame_counter w)).
Proof.
  intros Hfc H. split; [now apply proceed_command_counter|].
  intros H'. unfold main_iteration, bind.
  destruct (poll_run command w) as (w1 & -> & S1).
  destruct S1 as (Efc & _ & _ & _ & _ & _ & Ein & _).
  rewrite <- Efc. apply dispatch_stops, proceed_command_counter.
  - now rewrite Efc.
  - unfold arriving, dispatched in *. rewrite Ein.
    destruct H' as [->|H']; [|now right].
    destruct H as [H|H]; [now left|now right].
Qed.


(** C8: a command value above 11 sends nothing and reads nothing; it prints
    the complaint, leaves every other part of the world as it was, and
    returns 0, so that the main loop goes on to its next iteration. *)
Theorem unknown_command_is_ignored (fuel : nat) (command fd : Z) (w : world) :
  11 < command ->
  let w' := set_stdout
              (stdout w ++ [("This command does not exist." ++ nl)%string]) w in
  proceed_command fuel command fd w = Done 0 w' /\
  dispatch fuel command fd w = Done (Some (next_command w)) w' /\
  sock_log w' = sock_log w /\ sock_in w' = sock_in w /\
  tasflags w' = tasflags w /\ frame_counter w' = frame_counter w /\
  keyboard_state w' = keyboard_state w /\ stdin w' = stdin w.
Proof.
  intros H w'.
  assert (E : proceed_command fuel command fd w = Done 0 w').
  { unfold proceed_command.
    replace (command =? 0) with false by (symmetry; apply Z.eqb_neq; lia).
    replace (11 <? command) with true by (symmetry; apply Z.ltb_lt; lia).
    reflexivity. }
  split; [exact E|]. split; [|repeat split].
  unfold dispatch, bind. rewrite E. reflexivity.
Qed.

(** Whatever the command, [proceed_command] returns 0 when it returns: the
    [break] of the main loop is never taken. *)
Lemma proceed_command_returns_0 (fuel : nat) (command fd : Z) (w : world)
    (rc : Z) (w' : world) :
  proceed_command fuel command fd w = Done rc w' -> rc = 0.
Proof.
  unfold proceed_command.
  destruct (command =? 0); [unfold ret; congruence|].
  destruct (11 <? command); unfold bind at 1.
  - destruct (printf _ w); unfold ret; congruence.
  - destruct (send _ _ w) as [? w1| |]; try discriminate.
    unfold bind at 1. destruct (gets _ w1) as [junk w2| |]; try discriminate.
    unfold bind at 1. destruct (match command with _ => _ end w2);
      unfold ret; congruence.
Qed.

(** C2 (as the code has it): command value 0 is the idle command.
    Processing it sends nothing, reads nothing and changes nothing, and
    returns 0: the main loop goes on to its next iteration and the socket
    stays open. *)
Theorem command_zero_is_idle (fuel : nat) (fd : Z) (w : world) :
  proceed_command fuel 0 fd w = Done 0 w /\
  dispatch fuel 0 fd w = Done (Some (next_command w)) w.
Proof. split; reflexivity. Qed.

(** *** Opcode 9 *)

Lemma set_divisor_run (fuel : nat) (fd : Z) (w : world) :
  proceed_command fuel 9 fd w =
    match speed_divisor_loop fuel (divisor_reset fd w) with
    | Done _ w2 =>
        Done 0 (set_sock (sock_in w2)
                  (sock_log w2 ++
                     [Sent fd (le_encode 4 (speed_divisor (tasflags w2)))]) w2)
    | OutOfFuel w2 => OutOfFuel w2
    | Undefined => Undefined
    end.
Proof.
  unfold proceed_command. change (9 =? 0) with false.
  change (11 <? 9) with false. cbv iota beta.
  unfold bind, send, gets, set_speed_divisor, modify, ret. cbv beta.
  match goal with
  | |- context [speed_divisor_loop fuel ?w1] =>
      change w1 with (divisor_reset fd w)
  end.
  destruct (speed_divisor_loop fuel (divisor_reset fd w)); reflexivity.
Qed.

Lemma loop_pass_rejected (fuel : nat) (w : world) (t : word)
    (rest : list word) :
  stdin w = t :: rest -> rejected t = true ->
  speed_divisor_loop (S fuel) w = speed_divisor_loop fuel (entered 0 rest w).
Proof.
  intros Hin Hrej. unfold rejected in Hrej.
  destruct (as_int t) as [v|] eqn:Ev; [|discriminate].
  apply Z.eqb_eq in Hrej.
  cbn [speed_divisor_loop].
  unfold bind, printf, scanf_num, gets, set_speed_divisor, modify, ret.
  cbn [stdin set_stdout]. rewrite Hin, Ev. cbn [snd]. rewrite Hrej.
  reflexivity.
Qed.

Lemma loop_pass_accepted (fuel : nat) (w : world) (t : word) (v : Z)
    (rest : list word) :
  stdin w = t :: rest -> as_int t = Some v -> to_uint v <> 0 ->
  speed_divisor_loop (S fuel) w = Done tt (entered (to_uint v) rest w).
Proof.
  intros Hin Ev Hnz. apply Z.eqb_neq in Hnz.
  cbn [speed_divisor_loop].
  unfold bind, printf, scanf_num, gets, set_speed_divisor, modify, ret.
  cbn [stdin set_stdout]. rewrite Hin, Ev.
  cbn [snd tasflags set_tasflags speed_divisor]. rewrite Hnz.
  reflexivity.
Qed.

(** The loop is only ever left with a nonzero divisor in the field. *)
Lemma speed_divisor_loop_exit (fuel : nat) (w : world) :
  0 <= speed_divisor (tasflags w) < UINT_MOD ->
  match speed_divisor_loop fuel w with
  | Done _ w' => 0 < speed_divisor (tasflags w') < UINT_MOD
  | OutOfFuel _ => True
  | Undefined => False
  end.
Proof.
  revert w. induction fuel as [|fuel IH]; intros w Hr; [exact I|].
  cbn [speed_divisor_loop].
  unfold bind, printf, scanf_num, gets, set_speed_divisor, modify, ret.
  cbn [stdin set_stdout].
  destruct (stdin w) as [|t rest].
  - cbn [snd tasflags set_stdout].
    destruct (speed_divisor (tasflags w) =? 0) eqn:E.
    + apply IH. exact Hr.
    + apply Z.eqb_neq in E. cbn [tasflags set_stdout]. lia.
  - destruct (as_int t) as [v|].
    + cbn [snd tasflags set_tasflags speed_divisor].
      pose proof (to_uint_range v) as Hv.
      destruct (to_uint v =? 0) eqn:E.
      * apply IH. exact Hv.
      * apply Z.eqb_neq in E.
        cbn [tasflags set_tasflags speed_divisor]. lia.
    + cbn [snd tasflags set_stdout].
      destruct (speed_divisor (tasflags w) =? 0) eqn:E.
      * apply IH. exact Hr.
      * apply Z.eqb_neq in E. cbn [tasflags set_stdout]. lia.
Qed.

(** After [length zeros] rejected entries the loop is still asking, and the
    field holds 0. *)
Lemma speed_divisor_loop_rejecting (zeros : list word) :
  forall (w : world) (rest : list word),
    stdin w = zeros ++ rest -> forallb rejected zeros = true ->
    exists w',
      speed_divisor_loop (length zeros) w = OutOfFuel w' /\
      tasflags w' =
        match zeros with
        | [] => tasflags w
        | _ => mkTasFlags (running (tasflags w)) 0
        end /\
      stdin w' = rest /\ sock_log w' = sock_log w /\
      sock_in w' = sock_in w /\ frame_counter w' = frame_counter w.
Proof.
  induction zeros as [|t zeros IH]; intros w rest Hin Hz.
  - exists w. repeat split. exact Hin.
  - cbn [forallb] in Hz. apply andb_true_iff in Hz as [Ht Hz].
    cbn [length]. rewrite (loop_pass_rejected _ w t (zeros ++ rest) Hin Ht).
    destruct (IH (entered 0 (zeros ++ rest) w) rest eq_refl Hz)
      as (w' & E & Hf & Hs & Hl & Hi & Hc).
    exists w'. split; [exact E|]. repeat split; try assumption.
    rewrite Hf. destruct zeros; reflexivity.
Qed.

(** With the first nonzero entry within the budget, the loop ends with that
    entry in the field. *)
Lemma speed_divisor_loop_accepts (zeros : list word) :
  forall (fuel : nat) (w : world) (t : word) (v : Z) (rest : list word),
    stdin w = zeros ++ t :: rest -> forallb rejected zeros = true ->
    as_int t = Some v -> to_uint v <> 0 -> (length zeros < fuel)%nat ->
    exists w',
      speed_divisor_loop fuel w = Done tt w' /\
      tasflags w' = mkTasFlags (running (tasflags w)) (to_uint v) /\
      stdin w' = rest /\ sock_log w' = sock_log w /\
      sock_in w' = sock_in w /\ frame_counter w' = frame_counter w /\
      stdout w' =
        stdout w ++
        repeat "Enter non-null speed divisor factor: "%string
               (S (length zeros)).
Proof.
  induction zeros as [|z zeros IH]; intros fuel w t v rest Hin Hz Ev Hnz Hf;
    (destruct fuel as [|fuel]; [cbn [length] in Hf; lia|]).
  - rewrite (loop_pass_accepted _ w t v rest Hin Ev Hnz).
    eexists. split; [reflexivity|]. repeat split.
  - cbn [forallb] in Hz. apply andb_true_iff in Hz as [Ht Hz].
    rewrite (loop_pass_rejected _ w z (zeros ++ t :: rest) Hin Ht).
    destruct (IH fuel (entered 0 (zeros ++ t :: rest) w) t v rest eq_refl Hz
                Ev Hnz ltac:(cbn [length] in Hf; lia))
      as (w' & E & Hfl & Hs & Hl & Hi & Hc & Ho).
    exists w'. split; [exact E|]. repeat split; try assumption.
    rewrite Ho. cbn [entered stdout set_tasflags set_stdin set_stdout].
    rewrite <- app_assoc. reflexivity.
Qed.

(** C4: whatever is typed, an opcode-9 command never sends a zero divisor.
    When the command completes, the socket has seen the opcode and then the
    4 bytes of a nonzero divisor, the one left in the field; while the loop
    is still asking, only the opcode has been sent.  And the loop does end:
    after any number of entries stored as 0, the first nonzero entry is the
    one that is stored and sent, with one prompt per entry. *)
Theorem divisor_sent_is_never_zero (fuel : nat) (fd : Z) (w : world) :
  match proceed_command fuel 9 fd w with
  | Done rc w' =>
      rc = 0 /\
      0 < speed_divisor (tasflags w') < UINT_MOD /\
      sock_log w' =
        sock_log w ++ [Sent fd [x09; x00; x00; x00];
                       Sent fd (le_encode 4 (speed_divisor (tasflags w')))] /\
      le_decode (le_encode 4 (speed_divisor (tasflags w'))) <> 0
  | OutOfFuel w' => sock_log w' = sock_log w ++ [Sent fd [x09; x00; x00; x00]]
  | Undefined => False
  end /\
  forall (zeros : list word) (t : word) (v : Z) (rest : list word),
    stdin w = zeros ++ t :: rest -> forallb rejected zeros = true ->
    as_int t = Some v -> to_uint v <> 0 -> (length zeros < fuel)%nat ->
    exists w',
      proceed_command fuel 9 fd w = Done 0 w' /\
      speed_divisor (tasflags w') = to_uint v /\
      stdin w' = rest /\
      stdout w' =
        stdout w ++
        repeat "Enter non-null speed divisor factor: "%string
               (S (length zeros)) /\
      sock_log w' =
        sock_log w ++ [Sent fd [x09; x00; x00; x00];
                       Sent fd (le_encode 4 (to_uint v))].
Proof.
  rewrite set_divisor_run. split.
  - pose proof (speed_divisor_loop_exit fuel (divisor_reset fd w)) as Hexit.
    pose proof (keeps_speed_divisor_loop sock_log fuel
                  ltac:(reflexivity) ltac:(reflexivity) ltac:(reflexivity)
                  (divisor_reset fd w)) as Hlog.
    destruct (speed_divisor_loop fuel (divisor_reset fd w)) as [[] w2|w2|].
    + cbn [stops_with] in Hlog.
      specialize (Hexit ltac:(cbn; unfold UINT_MOD; lia)).
      cbn [tasflags set_sock sock_log]. rewrite Hlog.
      repeat split; try apply Hexit.
      * cbn [divisor_reset sock_log set_tasflags set_sock].
        now rewrite <- app_assoc.
      * rewrite le_decode_encode_uint; lia.
    + exact Hlog.
    + apply Hexit. cbn. unfold UINT_MOD. lia.
  - intros zeros t v rest Hin Hz Ev Hnz Hf.
    destruct (speed_divisor_loop_accepts zeros fuel (divisor_reset fd w)
                t v rest Hin Hz Ev Hnz Hf)
      as (w2 & -> & Hfl & Hs & Hl & Hi & Hc & Ho).
    eexists. split; [reflexivity|].
    cbn [tasflags set_sock sock_log stdin stdout].
    rewrite Hfl, Hl. repeat split; try assumption.
    cbn [divisor_reset sock_log set_tasflags set_sock speed_divisor].
    now rewrite <- app_assoc.
Qed.

(** C5 (as the code has it): the divisor field is reset to 0 when the
    opcode-9 command begins.  After any number of rejected entries the loop
    is still asking, the field holds 0 whatever it held before, the running
    flag is as it was, and only the opcode has been sent. *)
Theorem divisor_is_zero_while_rejecting
    (fd : Z) (w : world) (zeros rest : list word) :
  stdin w = zeros ++ rest -> forallb rejected zeros = true ->
  exists w',
    proceed_command (length zeros) 9 fd w = OutOfFuel w' /\
    speed_divisor (tasflags w') = 0 /\
    running (tasflags w') = running (tasflags w) /\
    stdin w' = rest /\
    sock_log w' = sock_log w ++ [Sent fd [x09; x00; x00; x00]].
Proof.
  intros Hin Hz. rewrite set_divisor_run.
  destruct (speed_divisor_loop_rejecting zeros (divisor_reset fd w) rest
              Hin Hz) as (w' & -> & Hf & Hs & Hl & _).
  exists w'. split; [reflexivity|]. rewrite Hf, Hs, Hl.
  destruct zeros; repeat split.
Qed.

(** *** Opcode 11 *)

(** C7: when the reply to an opcode-11 command is the flag 0, the command
    completes with the flags (running, divisor), the frame counter and the
    keyboard snapshot as they were; the socket has seen the opcode, the
    1024 bytes of the filename buffer and the one-byte read, and nothing
    else. *)
Theorem failed_load_changes_nothing
    (fuel : nat) (fd : Z) (w : world) (more : list byte)
    (later : list (list byte)) :
  filename_fits w = true ->
  sock_in w = (x00 :: more) :: later ->
  exists (w' : world) (name : list byte),
    proceed_command fuel 11 fd w = Done 0 w' /\
    length name = 1024%nat /\
    sock_log w' =
      sock_log w ++ [Sent fd [x0b; x00; x00; x00]; Sent fd name;
                     Received fd 1 [x00]] /\
    tasflags w' = tasflags w /\
    frame_counter w' = frame_counter w /\
    keyboard_state w' = keyboard_state w.
Proof.
  intros Hfit Hin. unfold filename_fits in Hfit.
  unfold proceed_command. change (11 =? 0) with false.
  change (11 <? 11) with false. cbv iota beta.
  unfold bind, send, printf, gets, scanf_s, recv, modify, ret. cbv beta.
  fields. rewrite Hin.
  destruct (stdin w) as [|t rest]; fields.
  - change (le_decode (overwrite [stack_junk w 1024%nat]
                         (take 1 (x00 :: more))) =? 0) with true.
    cbv iota beta. eexists. exists (map (stack_junk w) (seq 0 1024)).
    split; [reflexivity|]. fields.
    split; [now rewrite length_map, length_seq|].
    split; [now rewrite <- !app_assoc|repeat split].
  - rewrite length_map, length_seq, Hfit. fields.
    change (le_decode (overwrite [stack_junk w 1024%nat]
                         (take 1 (x00 :: more))) =? 0) with true.
    cbv iota beta. eexists.
    exists (overwrite (map (stack_junk w) (seq 0 1024)) (text t ++ [x00])).
    split; [reflexivity|]. fields.
    split.
    { apply Nat.ltb_lt in Hfit.
      rewrite length_overwrite; rewrite ?length_app, ?length_map, ?length_seq;
        cbn [length]; lia. }
    split; [now rewrite <- !app_assoc|repeat split].
Qed.

(** *** The main loop *)

Lemma iteration_advances (fuel : nat) (command fd : Z) (w : world) :
  dispatched command w = 8 ->
  exists (w' : world) (snapshot : list byte),
    main_iteration fuel command fd w = Done (Some (next_command w')) w' /\
    sock_log w' =
      sock_log w ++ [Sent fd [x08; x00; x00; x00]; Sent fd snapshot;
                     Received fd 8 (take 8 (arriving w))] /\
    (length (keyboard_state w) = 32%nat -> length snapshot = 32%nat).
Proof.
  intros Hd. unfold main_iteration, bind.
  destruct (poll_run command w) as (w1 & -> & S1). rewrite Hd.
  destruct S1 as (_ & _ & _ & _ & _ & _ & Ein & Elog & _ & Ekbd).
  destruct (advance_run fuel fd w1) as (w' & E & _ & Hl & _).
  exists w', (keyboard_state w1). unfold dispatch, bind. rewrite E.
  split; [reflexivity|]. split.
  - rewrite Hl, Elog. unfold arriving. rewrite Ein. reflexivity.
  - intros H32. destruct Ekbd as [->|H]; assumption.
Qed.

Lemma iteration_idle (fuel : nat) (command fd : Z) (w : world) :
  dispatched command w = 0 ->
  exists w',
    main_iteration fuel command fd w = Done (Some (next_command w')) w' /\
    sock_log w' = sock_log w /\ sock_in w' = sock_in w /\
    frame_counter w' = frame_counter w.
Proof.
  intros Hd. unfold main_iteration, bind.
  destruct (poll_run command w) as (w1 & -> & S1). rewrite Hd.
  destruct S1 as (Efc & _ & _ & _ & _ & _ & Ein & Elog & _).
  exists w1. repeat split; assumption.
Qed.

(** No iteration ends in the [break]: the loop can only go on. *)
Lemma main_iteration_never_breaks (fuel : nat) (command fd : Z)
    (w w' : world) :
  main_iteration fuel command fd w <> Done None w'.
Proof.
  unfold main_iteration, bind.
  destruct (poll_run command w) as (w1 & -> & _).
  unfold dispatch, bind.
  destruct (proceed_command fuel (dispatched command w) fd w1)
    as [rc w2| |] eqn:E; try discriminate.
  apply proceed_command_returns_0 in E. subst rc. discriminate.
Qed.

Lemma main_loop_never_returns (iterations fuel : nat) (command fd : Z)
    (w : world) (rc : Z) (w' : world) :
  main_loop iterations fuel command fd w <> Done rc w'.
Proof.
  revert command w. induction iterations as [|n IH]; intros command w;
    [discriminate|].
  cbn [main_loop]. unfold bind at 1.
  destruct (main_iteration fuel command fd w) as [[c|] w1| |] eqn:E;
    try discriminate.
  - apply IH.
  - now apply main_iteration_never_breaks in E.
Qed.

(** C10: let [w] be the world at the end of an iteration of the main loop,
    where the pending command becomes [next_command w].  If the running flag
    is set, that command is 8 and the next iteration sends opcode 8 with a
    keyboard snapshot and asks for the counter, whatever events are pending,
    none included.  If the flag is clear, that command is 0: with no
    frame-advance hotkey among the pending events the next iteration sends
    and reads nothing; with one, it sends opcode 8. *)
Theorem running_flag_selects_next_command (fuel : nat) (fd : Z) (w : world) :
  (running (tasflags w) <> 0 ->
   next_command w = 8 /\
   exists (w' : world) (snapshot : list byte),
     main_iteration fuel (next_command w) fd w =
       Done (Some (next_command w')) w' /\
     sock_log w' =
       sock_log w ++ [Sent fd [x08; x00; x00; x00]; Sent fd snapshot;
                      Received fd 8 (take 8 (arriving w))] /\
     (length (keyboard_state w) = 32%nat -> length snapshot = 32%nat)) /\
  (running (tasflags w) = 0 ->
   next_command w = 0 /\
   (presses (hotkey_frameadvance w) (hd [] (x_events w)) = false ->
    exists w',
      main_iteration fuel (next_command w) fd w =
        Done (Some (next_command w')) w' /\
      sock_log w' = sock_log w /\ sock_in w' = sock_in w /\
      frame_counter w' = frame_counter w) /\
   (presses (hotkey_frameadvance w) (hd [] (x_events w)) = true ->
    exists (w' : world) (snapshot : list byte),
      main_iteration fuel (next_command w) fd w =
        Done (Some (next_command w')) w' /\
      sock_log w' =
        sock_log w ++ [Sent fd [x08; x00; x00; x00]; Sent fd snapshot;
                       Received fd 8 (take 8 (arriving w))] /\
      (length (keyboard_state w) = 32%nat -> length snapshot = 32%nat))).
Proof.
  split; intros Hr.
  - assert (Hn : next_command w = 8).
    { unfold next_command. apply Z.eqb_neq in Hr. now rewrite Hr. }
    split; [exact Hn|]. rewrite Hn. apply iteration_advances.
    unfold dispatched. now destruct (presses _ _).
  - assert (Hn : next_command w = 0).
    { unfold next_command. now rewrite Hr. }
    split; [exact Hn|]. rewrite Hn. split; intros Hp.
    + apply iteration_idle. unfold dispatched. now rewrite Hp.
    + apply iteration_advances. unfold dispatched. now rewrite Hp.
Qed.

End ControllerFacts.

(** ** The thread registry *)

Section RegistryFacts.
Import Registry.

Lemma spent_record_refuses (reg : gmap Z ThreadRecord) (caller id : Z)
    (r : ThreadRecord) :
  reg !! id = Some r -> is_joined r || is_detached r = true ->
  join caller id reg = (Failed UsageError, reg) /\
  detach id reg = (Failed UsageError, reg).
Proof.
  intros Hl Hs. unfold join, detach. now rewrite Hl, Hs.
Qed.

(** Whatever it answers, a detach leaves the record spent. *)
Lemma detach_spends (reg : gmap Z ThreadRecord) (id : Z) (r : ThreadRecord) :
  reg !! id = Some r ->
  exists r', snd (detach id reg) !! id = Some r' /\
             is_joined r' || is_detached r' = true.
Proof.
  intros Hl. unfold detach. rewrite Hl.
  destruct (is_joined r || is_detached r) eqn:Hs; cbn [snd].
  - exists r. now split.
  - exists (set_detached r). split; [apply lookup_insert_eq|].
    apply orb_true_r.
Qed.

(** Whatever it answers, also when it blocks, a join leaves the record
    spent. *)
Lemma join_spends (reg : gmap Z ThreadRecord) (caller id : Z)
    (r : ThreadRecord) :
  reg !! id = Some r ->
  exists r', snd (join caller id reg) !! id = Some r' /\
             is_joined r' || is_detached r' = true.
Proof.
  intros Hl. unfold join. rewrite Hl.
  destruct (is_joined r || is_detached r) eqn:Hs; cbn [snd].
  { exists r. now split. }
  assert (Hb : exists r',
            mark_waiting caller (<[id := set_joiner caller r]> reg) !! id =
              Some r' /\ is_joined r' || is_detached r' = true).
  { unfold mark_waiting. destruct (decide (caller = id)) as [->|Hne].
    - rewrite lookup_alter_eq, lookup_insert_eq.
      exists (set_state WAITING (set_joiner id r)). split; reflexivity.
    - rewrite lookup_alter_ne, lookup_insert_eq by exact Hne.
      exists (set_joiner caller r). split; reflexivity. }
  destruct (state r); cbn [snd]; try exact Hb.
  exists (set_joiner caller (set_state JOINED r)).
  split; [apply lookup_insert_eq|reflexivity].
Qed.

(** C6: on an id that has a record, once join or detach has been invoked,
    whatever that invocation answered and also while that join is still
    blocked, every further join (by whatever caller) and every further
    detach on the id is answered with the usage-contract error and leaves
    the registry as it is: detach then join, join then detach, and either
    one twice. *)
Theorem join_and_detach_exclude_each_other
    (reg : gmap Z ThreadRecord) (id first_caller second_caller : Z) :
  is_Some (reg !! id) ->
  (join second_caller id (snd (join first_caller id reg)) =
     (Failed UsageError, snd (join first_caller id reg)) /\
   detach id (snd (join first_caller id reg)) =
     (Failed UsageError, snd (join first_caller id reg))) /\
  (join second_caller id (snd (detach id reg)) =
     (Failed UsageError, snd (detach id reg)) /\
   detach id (snd (detach id reg)) =
     (Failed UsageError, snd (detach id reg))).
Proof.
  intros [r Hl]. split.
  - destruct (join_spends reg first_caller id r Hl) as (r' & Hl' & Hs).
    exact (spent_record_refuses _ second_caller _ _ Hl' Hs).
  - destruct (detach_spends reg id r Hl) as (r' & Hl' & Hs).
    exact (spent_record_refuses _ second_caller _ _ Hl' Hs).
Qed.

(** The blocked join going on does not free the record: it stays spent. *)
Lemma join_wake_keeps_spent (reg : gmap Z ThreadRecord) (caller id : Z)
    (r : ThreadRecord) :
  reg !! id = Some r -> is_joined r || is_detached r = true ->
  exists r', snd (join_wake caller id reg) !! id = Some r' /\
             is_joined r' || is_detached r' = true.
Proof.
  intros Hl Hs. unfold join_wake. rewrite Hl.
  destruct (bool_decide (joiner r = Some caller)) eqn:Hj; cbn [snd];
    [|exists r; now split].
  apply bool_decide_eq_true in Hj.
  destruct (state r) eqn:Est; cbn [snd]; try (exists r; now split).
  unfold mark_running. destruct (decide (caller = id)) as [->|Hne];
    [rewrite lookup_alter_eq|rewrite lookup_alter_ne by exact Hne];
    rewrite lookup_insert_eq; eexists; (split; [reflexivity|]);
    unfold is_joined; cbn [joiner set_state]; now rewrite Hj.
Qed.

End RegistryFacts.

(** ** The statements at concrete worlds *)

Section Examples.
Import Controller Registry Samples.

Lemma frame_counter_changes_only_on_advance_witness :
  0 <= frame_counter w_silent < ULONG_MOD /\
  (8 <> 8 \/ arriving w_silent = []) /\
  stops_with frame_counter (proceed_command 1 8 3 w_silent) 5 /\
  stops_with frame_counter (main_iteration 1 8 3 w_silent) 5.
Proof.
  assert (Hr : 0 <= frame_counter w_silent < ULONG_MOD)
    by (unfold ULONG_MOD; cbn; lia).
  assert (Ha : 8 <> 8 \/ arriving w_silent = []) by (right; reflexivity).
  destruct (frame_counter_changes_only_on_advance 1 8 3 w_silent Hr Ha)
    as [H1 H2].
  split; [exact Hr|]. split; [exact Ha|]. split; [exact H1|].
  apply H2. right. reflexivity.
Defined.

Lemma command_zero_neither_sends_nor_stops :
  ~ (exists w', dispatch 1 0 3 w0 = Done None w') /\
  (forall rc w', proceed_command 1 0 3 w0 = Done rc w' ->
                 ~ In (Sent 3 [x00; x00; x00; x00]) (sock_log w')) /\
  (exists w', main_loop 4 1 0 3 w0 = OutOfFuel w' /\ sock_log w' = []).
Proof.
  split; [|split].
  - intros [w' H]. discriminate H.
  - intros rc w' [= _ <-] [].
  - eexists. split; reflexivity.
Qed.


Lemma divisor_sent_is_never_zero_witness :
  exists w',
    proceed_command 3 9 3 w_typing = Done 0 w' /\
    speed_divisor (tasflags w') = 4294967295 /\
    stdin w' = [typed [x37] 7] /\
    sock_log w' = [Sent 3 [x09; x00; x00; x00]; Sent 3 [xff; xff; xff; xff]].
Proof.
  destruct (divisor_sent_is_never_zero 3 3 w_typing) as [_ H].
  destruct (H [typed [x30] 0; typed [x30] 0] (typed [x2d; x31] (-1)) (-1)
              [typed [x37] 7] eq_refl eq_refl eq_refl
              ltac:(discriminate) ltac:(cbn; lia))
    as (w' & E & Hd & Hs & _ & Hl).
  exists w'. repeat split; assumption.
Defined.

Lemma prior_divisor_is_lost :
  speed_divisor (tasflags w_zero_first) = 1 /\
  ~ (forall w', proceed_command 1 9 3 w_zero_first = OutOfFuel w' ->
                speed_divisor (tasflags w') =
                speed_divisor (tasflags w_zero_first)).
Proof.
  split; [reflexivity|]. intros H.
  specialize (H _ eq_refl). discriminate H.
Qed.

Lemma divisor_is_zero_while_rejecting_witness :
  exists w',
    proceed_command 1 9 3 w_zero_first = OutOfFuel w' /\
    speed_divisor (tasflags w') = 0 /\
    stdin w' = [typed [x37] 7].
Proof.
  destruct (divisor_is_zero_while_rejecting 3 w_zero_first
              [typed [x30] 0] [typed [x37] 7] eq_refl eq_refl)
    as (w' & E & Hd & _ & Hs & _).
  exists w'. repeat split; assumption.
Defined.

Lemma join_and_detach_exclude_each_other_witness :
  is_Some (reg0 !! 8) /\
  join 1 8 reg0 = (Blocked, snd (join 1 8 reg0)) /\
  join 2 8 (snd (join 1 8 reg0)) = (Failed UsageError, snd (join 1 8 reg0)) /\
  detach 8 (snd (join 1 8 reg0)) = (Failed UsageError, snd (join 1 8 reg0)).
Proof.
  assert (H : is_Some (reg0 !! 8)) by (exists worker; reflexivity).
  split; [exact H|]. split; [reflexivity|].
  pose proof (join_and_detach_exclude_each_other reg0 8 1 2 H) as [Hj _].
  exact Hj.
Defined.

Lemma failed_load_changes_nothing_witness :
  filename_fits w_load = true /\
  exists w',
    proceed_command 1 11 3 w_load = Done 0 w' /\
    tasflags w' = tasflags w_load /\
    frame_counter w' = frame_counter w_load.
Proof.
  split; [reflexivity|].
  destruct (failed_load_changes_nothing 1 3 w_load [] [] eq_refl eq_refl)
    as (w' & name & E & _ & _ & Ht & Hc & _).
  exists w'. repeat split; assumption.
Defined.

Lemma unknown_command_is_ignored_witness :
  11 < 12 /\
  proceed_command 1 12 3 w0 =
    Done 0 (set_stdout [("This command does not exist." ++ nl)%string] w0).
Proof.
  split; [lia|].
  exact (proj1 (unknown_command_is_ignored 1 12 3 w0 ltac:(lia))).
Defined.

Lemma running_flag_selects_next_command_witness :
  next_command w_running = 8 /\
  (exists w' snapshot,
     main_iteration 1 (next_command w_running) 3 w_running =
       Done (Some (next_command w')) w' /\
     sock_log w' = [Sent 3 [x08; x00; x00; x00]; Sent 3 snapshot;
                    Received 3 8 []]) /\
  next_command w0 = 0 /\
  (exists w',
     main_iteration 1 (next_command w0) 3 w0 =
       Done (Some (next_command w')) w' /\
     sock_log w' = []).
Proof.
  destruct (running_flag_selects_next_command 1 3 w_running) as [H1 _].
  destruct (H1 ltac:(discriminate)) as (Hn & w' & snapshot & E & Hl & _).
  destruct (running_flag_selects_next_command 1 3 w0) as [_ H2].
  destruct (H2 eq_refl) as (Hn0 & Hidle & _).
  destruct (Hidle eq_refl) as (w'' & E0 & Hl0 & _).
  split; [exact Hn|]. split; [exists w', snapshot; split; assumption|].
  split; [exact Hn0|]. exists w''. split; assumption.
Defined.

End Examples.

(** ** More of [proceed_command] *)

Section CommandFacts.
Import Controller Behaviour.

Ltac fields :=
  cbn [tasflags frame_counter keyboard_state hotkey_frameadvance
       hotkey_playpause stdin stdout sock_in sock_log x_events x_keyboard
       x_queries stack_junk set_tasflags set_frame_counter
       set_keyboard_state set_stdin set_stdout set_sock set_x fst snd
       running speed_divisor opcode_sent].

(** A command that passes both guards runs the switch in the world where
    its opcode has been sent. *)
Lemma after_opcode (fuel : nat) (command fd : Z) (w : world) :
  (command =? 0) = false -> (11 <? command) = false ->
  proceed_command fuel command fd w =
    (match command with
     | 7 => toggle_running
     | 8 =>
         ks <- gets keyboard_state;;
         send fd ks;;
         got <- recv fd 8;;
         modify (fun w =>
           set_frame_counter
             (le_decode (overwrite (le_encode 8 (frame_counter w)) got)) w)
     | 9 =>
         set_speed_divisor 0;;
         speed_divisor_loop fuel;;
         d <- gets (fun w => speed_divisor (tasflags w));;
         send fd (le_encode 4 d)
     | 10 =>
         printf "Enter filename to save inputs in: ";;
         r <- scanf_s (map (stack_junk w) (seq 0 1024));;
         send fd (snd r);;
         first_frame <- first_frame_loop fuel 0;;
         send fd (le_encode 8 first_frame)
     | 11 =>
         printf "Enter filename from which to load inputs: ";;
         r <- scanf_s (map (stack_junk w) (seq 0 1024));;
         send fd (snd r);;
         got <- recv fd 1;;
         if le_decode (overwrite [stack_junk w 1024%nat] got) =? 0
         then printf ("libTAS couldn’t load inputs." ++ nl)
         else ret tt
     | _ => ret tt
     end;; ret 0) (opcode_sent command fd w).
Proof.
  intros E0 E11. unfold proceed_command. rewrite E0, E11. reflexivity.
Qed.

Lemma keeps_speed_divisor_loop_flag {B} (f : world -> B) (fuel : nat) :
  (forall o w, f (set_stdout o w) = f w) ->
  (forall i w, f (set_stdin i w) = f w) ->
  (forall d w,
     f (set_tasflags (mkTasFlags (running (tasflags w)) d) w) = f w) ->
  keeps f (speed_divisor_loop fuel).
Proof.
  intros Ho Hi Ht. induction fuel as [|fuel IH]; cbn [speed_divisor_loop].
  - apply keeps_out_of_fuel.
  - apply keeps_bind; [now apply keeps_printf|intros _].
    apply keeps_bind; [now apply keeps_scanf_num|intros r].
    apply keeps_bind.
    + destruct (snd r); [apply keeps_modify, Ht|apply keeps_ret].
    + intros _. apply keeps_bind; [apply keeps_gets|intros d].
      destruct (d =? 0); [exact IH|apply keeps_ret].
Qed.

Ltac frame2 :=
  repeat first
    [ apply keeps_ret | apply keeps_gets | apply keeps_out_of_fuel
    | apply keeps_bind; [|intros ?]
    | apply keeps_printf; intros; reflexivity
    | apply keeps_send; intros; reflexivity
    | apply keeps_recv; intros; reflexivity
    | apply keeps_scanf_s; intros; reflexivity
    | apply keeps_first_frame_loop; intros; reflexivity
    | apply keeps_speed_divisor_loop_flag; intros; reflexivity
    | apply keeps_modify; intros; reflexivity
    | match goal with
      | |- keeps _ (if ?b then _ else _) => destruct b
      end ].

Ltac by_command E0 E11 :=
  match goal with
  | |- keeps _ (proceed_command _ ?command _) =>
      unfold proceed_command;
      destruct (command =? 0) eqn:E0; [frame2|];
      destruct (11 <? command) eqn:E11; [frame2|];
      destruct (command_cases command E0 E11)
        as [?|[->|[->|[->|[->|[->|[->|[->|[->|[->|[->| ->]]]]]]]]]]];
      try contradiction; [destruct command; try lia|..]; cbv iota beta
  end.

(** X1: within [proceed_command] the running flag is written by case 7
    alone. *)
Theorem running_flag_changes_only_on_toggle (fuel : nat) (command fd : Z) :
  command <> 7 ->
  keeps (fun w => running (tasflags w)) (proceed_command fuel command fd).
Proof.
  intros Hne. by_command E0 E11; unfold set_speed_divisor; frame2.
Qed.

(** X23: [proceed_command] ends in [return 0] on every path: whatever the
    command value and the input, the value it hands back to [main] is 0, and
    the test in front of [break] never succeeds. *)
Theorem return_value_is_always_0
    (fuel : nat) (command fd : Z) (w : world) (rc : Z) (w' : world) :
  proceed_command fuel command fd w = Done rc w' ->
  rc = 0 /\ exists next, dispatch fuel command fd w = Done (Some next) w'.
Proof.
  intros E. pose proof (proceed_command_returns_0 _ _ _ _ _ _ E) as ->.
  split; [reflexivity|]. unfold dispatch, bind. rewrite E.
  eexists. reflexivity.
Qed.

Lemma proceed_command_keeps_divisor (fuel : nat) (command fd : Z) :
  command <> 9 ->
  keeps (fun w => speed_divisor (tasflags w))
        (proceed_command fuel command fd).
Proof.
  intros Hne. by_command E0 E11; unfold toggle_running; frame2.
Qed.

Lemma proceed_command_keeps_devices (fuel : nat) (command fd : Z) :
  keeps (fun w => (keyboard_state w, hotkey_frameadvance w,
                   hotkey_playpause w, x_events w, x_queries w))
        (proceed_command fuel command fd).
Proof.
  by_command E0 E11; unfold toggle_running, set_speed_divisor; frame2.
Qed.

(** X2: within [proceed_command] the speed divisor is written by case 9
    alone. *)
Theorem divisor_changes_only_on_set_divisor (fuel : nat) (command fd : Z) :
  command <> 9 ->
  keeps (fun w => speed_divisor (tasflags w))
        (proceed_command fuel command fd).
Proof. apply proceed_command_keeps_divisor. Qed.

(** X3: no command touches the keyboard snapshot, the hotkeys or the X
    server's queue. *)
Theorem commands_leave_input_devices (fuel : nat) (command fd : Z) :
  keeps (fun w => (keyboard_state w, hotkey_frameadvance w,
                   hotkey_playpause w, x_events w, x_queries w))
        (proceed_command fuel command fd).
Proof. apply proceed_command_keeps_devices. Qed.

(** X4: the commands 1 to 6 have no case in the switch: all they do is
    send their opcode. *)
Theorem plain_commands_only_send_opcode
    (fuel : nat) (command fd : Z) (w : world) :
  1 <= command <= 6 ->
  proceed_command fuel command fd w = Done 0 (opcode_sent command fd w).
Proof.
  intros H.
  assert (H' : command = 1 \/ command = 2 \/ command = 3 \/ command = 4 \/
               command = 5 \/ command = 6) by lia.
  destruct H' as [->|[->|[->|[->|[->| ->]]]]]; reflexivity.
Qed.

(** X5: opcode 7 negates the running flag as a C truth value and touches
    nothing else but the socket record; a second opcode 7 brings the flag
    back to the truth value it had, and to the very value when that was 0
    or 1. *)
Theorem toggle_twice_restores (fuel : nat) (fd : Z) (w : world) :
  exists w1 w2,
    proceed_command fuel 7 fd w = Done 0 w1 /\
    proceed_command fuel 7 fd w1 = Done 0 w2 /\
    (running (tasflags w1) =? 0) = negb (running (tasflags w) =? 0) /\
    (running (tasflags w2) =? 0) = (running (tasflags w) =? 0) /\
    (running (tasflags w) = 0 \/ running (tasflags w) = 1 ->
     tasflags w2 = tasflags w) /\
    sock_log w2 =
      sock_log w ++ [Sent fd [x07; x00; x00; x00];
                     Sent fd [x07; x00; x00; x00]] /\
    frame_counter w2 = frame_counter w /\ sock_in w2 = sock_in w.
Proof.
  pose (t := fun w =>
              set_tasflags (mkTasFlags (lnot (running (tasflags w)))
                                       (speed_divisor (tasflags w)))
                           (opcode_sent 7 fd w)).
  exists (t w), (t (t w)). split; [reflexivity|]. split; [reflexivity|].
  subst t. fields. unfold lnot.
  destruct (running (tasflags w) =? 0) eqn:E; cbn [Z.eqb negb];
    (split; [reflexivity|]); (split; [reflexivity|]);
    (split; [|split; [now rewrite <- app_assoc|split; reflexivity]]).
  - intros _. apply Z.eqb_eq in E. destruct (tasflags w) as [r d].
    cbn in *. now subst r.
  - intros [H|H]; apply Z.eqb_neq in E; [contradiction|].
    destruct (tasflags w) as [r d]. cbn in *. now subst r.
Qed.

(** *** What goes over the socket *)

Lemma relates_ret {A} (R : world -> world -> Prop) (a : A) :
  (forall w, R w w) -> relates R (ret a).
Proof. intros Hr w. apply Hr. Qed.

Lemma relates_bind {A C} (R : world -> world -> Prop) (m : io A)
    (k : A -> io C) :
  (forall w1 w2 w3, R w1 w2 -> R w2 w3 -> R w1 w3) ->
  relates R m -> (forall a, relates R (k a)) -> relates R (bind m k).
Proof.
  intros Ht Hm Hk w. unfold bind. specialize (Hm w).
  destruct (m w) as [a w1|w1|]; [|exact Hm|exact I].
  specialize (Hk a w1). destruct (k a w1); [| |exact I]; eapply Ht; eassumption.
Qed.

Lemma log_grows_refl (fd : Z) (w : world) : log_grows fd w w.
Proof. exists []. split; [now rewrite app_nil_r|constructor]. Qed.

Lemma log_grows_trans (fd : Z) (w1 w2 w3 : world) :
  log_grows fd w1 w2 -> log_grows fd w2 w3 -> log_grows fd w1 w3.
Proof.
  intros (t1 & E1 & F1) (t2 & E2 & F2). exists (t1 ++ t2). split.
  - now rewrite E2, E1, <- app_assoc.
  - apply Forall_app. now split.
Qed.

Lemma log_grows_of_keeps {A} (fd : Z) (m : io A) :
  keeps sock_log m -> relates (log_grows fd) m.
Proof.
  intros Hk w. specialize (Hk w).
  destruct (m w) as [a w'|w'|]; [| |exact I]; cbn [stops_with] in Hk;
    (exists []; split; [now rewrite app_nil_r|constructor]).
Qed.

Lemma log_grows_send (fd : Z) (data : list byte) :
  relates (log_grows fd) (send fd data).
Proof.
  intros w. exists [Sent fd data]. split; [reflexivity|].
  repeat constructor.
Qed.

Lemma log_grows_recv (fd : Z) (n : nat) : relates (log_grows fd) (recv fd n).
Proof.
  intros w. unfold recv.
  destruct (sock_in w) as [|chunk later]; eexists [_];
    (split; [reflexivity|repeat constructor]).
Qed.

Ltac grow fd :=
  repeat first
    [ apply relates_ret; apply log_grows_refl
    | apply relates_bind; [apply log_grows_trans| |intros ?]
    | apply log_grows_send
    | apply log_grows_recv
    | apply log_grows_of_keeps;
      unfold toggle_running, set_speed_divisor; solve [frame2]
    | match goal with
      | |- relates _ (if ?b then _ else _) => destruct b
      end ].

(** X6: a command from 1 to 11 first sends its own opcode, in 4 bytes that
    decode to it; whatever follows on the socket, up to the point where the
    command stops, is a send or a receive on the same descriptor, never a
    close. *)
Theorem opcode_goes_first (fuel : nat) (command fd : Z) (w : world) :
  1 <= command <= 11 ->
  le_decode (le_encode 4 command) = command /\
  match proceed_command fuel command fd w with
  | Done _ w' | OutOfFuel w' =>
      exists tail,
        sock_log w' = sock_log w ++ Sent fd (le_encode 4 command) :: tail /\
        Forall (on_socket fd) tail
  | Undefined => True
  end.
Proof.
  intros H. split.
  { apply le_decode_encode_uint. unfold UINT_MOD. lia. }
  rewrite after_opcode by lia.
  match goal with
  | |- match ?body (opcode_sent command fd w) with _ => _ end =>
      assert (Hg : relates (log_grows fd) body)
  end.
  { assert (H' : command = 1 \/ command = 2 \/ command = 3 \/ command = 4 \/
                 command = 5 \/ command = 6 \/ command = 7 \/ command = 8 \/
                 command = 9 \/ command = 10 \/ command = 11) by lia.
    destruct H' as [->|[->|[->|[->|[->|[->|[->|[->|[->|[->| ->]]]]]]]]]];
      cbv iota beta; grow fd. }
  specialize (Hg (opcode_sent command fd w)).
  match goal with
  | |- match ?o with _ => _ end => destruct o as [rc w'|w'|]
  end; [| |exact I]; destruct Hg as (tail & E & F); exists tail;
    (split; [|exact F]); rewrite E; unfold opcode_sent; fields;
    now rewrite <- app_assoc.
Qed.

(** *** Opcode 8 with a short response *)

Lemma le_decode_app (a b : list byte) :
  le_decode (a ++ b) = le_decode a + 256 ^ Z.of_nat (length a) * le_decode b.
Proof.
  induction a as [|x a IH]; cbn [app le_decode length].
  - change (256 ^ Z.of_nat 0) with 1. lia.
  - rewrite IH, Nat2Z.inj_succ, Z.pow_succ_r by lia. lia.
Qed.

Lemma drop_le_encode (k n : nat) (x : Z) :
  drop k (le_encode n x) = le_encode (n - k) (x / 256 ^ Z.of_nat k).
Proof.
  revert n x. induction k as [|k IH]; intros n x.
  - rewrite drop_0, Nat.sub_0_r. change (256 ^ Z.of_nat 0) with 1.
    now rewrite Z.div_1_r.
  - destruct n as [|n]; [reflexivity|].
    cbn [le_encode drop Nat.sub]. rewrite IH.
    rewrite Nat2Z.inj_succ, Z.pow_succ_r by lia.
    rewrite Z.div_div by lia. reflexivity.
Qed.

(** X7: the return value of [recv] is not looked at, so a response of
    [k <= 8] bytes replaces the [k] low bytes of the frame counter and keeps
    the high ones. *)
Theorem short_response_overwrites_low_bytes (fuel : nat) (fd : Z) (w : world) :
  0 <= frame_counter w < ULONG_MOD ->
  exists w',
    proceed_command fuel 8 fd w = Done 0 w' /\
    frame_counter w' =
      le_decode (take 8 (arriving w)) +
      256 ^ Z.of_nat (length (take 8 (arriving w))) *
      (frame_counter w / 256 ^ Z.of_nat (length (take 8 (arriving w)))).
Proof.
  intros Hr. destruct (advance_run fuel fd w) as (w' & E & Hc & _).
  exists w'. split; [exact E|]. rewrite Hc. unfold overwrite.
  set (got := take 8 (arriving w)).
  assert (Hk : (length got <= 8)%nat) by (subst got; rewrite length_take; lia).
  rewrite le_decode_app, drop_le_encode, le_decode_encode.
  f_equal. f_equal. apply Z.mod_small.
  set (k := length got) in *.
  assert (Hp : 256 ^ Z.of_nat k * 256 ^ Z.of_nat (8 - k) = ULONG_MOD).
  { rewrite <- Z.pow_add_r by lia.
    replace (Z.of_nat k + Z.of_nat (8 - k)) with 8 by lia. reflexivity. }
  assert (Hpos : 0 < 256 ^ Z.of_nat k) by (apply Z.pow_pos_nonneg; lia).
  split; [apply Z.div_pos; lia|].
  apply Z.div_lt_upper_bound; [exact Hpos|]. rewrite Hp. lia.
Qed.

(** *** Opcode 9 that never ends *)

Lemma speed_divisor_loop_stuck (fuel : nat) :
  forall w : world,
    no_number (stdin w) = true -> speed_divisor (tasflags w) = 0 ->
    exists w',
      speed_divisor_loop fuel w = OutOfFuel w' /\
      tasflags w' = tasflags w /\ stdin w' = stdin w /\
      sock_log w' = sock_log w /\
      stdout w' =
        stdout w ++ repeat "Enter non-null speed divisor factor: "%string fuel.
Proof.
  induction fuel as [|fuel IH]; intros w Hn Hz.
  - exists w. repeat split. cbn [repeat]. now rewrite app_nil_r.
  - set (w1 := set_stdout
                 (stdout w ++ ["Enter non-null speed divisor factor: "%string])
                 w).
    assert (E : speed_divisor_loop (S fuel) w = speed_divisor_loop fuel w1).
    { cbn [speed_divisor_loop].
      unfold bind, printf, scanf_num, gets, set_speed_divisor, modify, ret.
      fields. unfold no_number in Hn.
      destruct (stdin w) as [|t rest]; fields.
      - now rewrite Hz.
      - destruct (as_int t); [discriminate|]. fields. now rewrite Hz. }
    rewrite E. destruct (IH w1 Hn Hz) as (w' & E' & Hf & Hs & Hl & Ho).
    exists w'. split; [exact E'|]. repeat split; try assumption.
    rewrite Ho. subst w1. fields. now rewrite <- app_assoc.
Qed.

Lemma speed_divisor_loop_never_ends (zeros : list word) :
  forall (fuel : nat) (w : world) (rest : list word),
    stdin w = zeros ++ rest -> forallb rejected zeros = true ->
    no_number rest = true -> speed_divisor (tasflags w) = 0 ->
    exists w',
      speed_divisor_loop fuel w = OutOfFuel w' /\
      speed_divisor (tasflags w') = 0 /\
      running (tasflags w') = running (tasflags w) /\
      sock_log w' = sock_log w.
Proof.
  induction zeros as [|z zeros IH]; intros fuel w rest Hin Hz Hn Hd.
  - cbn [app] in Hin. rewrite <- Hin in Hn.
    destruct (speed_divisor_loop_stuck fuel w Hn Hd)
      as (w' & E & Hf & _ & Hl & _).
    exists w'. rewrite Hf. repeat split; assumption.
  - destruct fuel as [|fuel].
    + exists w. repeat split. exact Hd.
    + cbn [forallb] in Hz. apply andb_true_iff in Hz as [Ht Hz].
      rewrite (loop_pass_rejected _ w z (zeros ++ rest) Hin Ht).
      destruct (IH fuel (entered 0 (zeros ++ rest) w) rest eq_refl Hz Hn
                  eq_refl) as (w' & E & Hd' & Hr & Hl).
      exists w'. repeat split; assumption.
Qed.

(** X8: when the typed entries run out, or a word that is not a number
    comes up, before any nonzero entry, the opcode-9 command never
    completes: however long it runs it is still asking, the divisor field is
    0 and only the opcode has been sent. *)
Theorem set_divisor_never_ends_without_number
    (fuel : nat) (fd : Z) (w : world) (zeros rest : list word) :
  stdin w = zeros ++ rest -> forallb rejected zeros = true ->
  no_number rest = true ->
  exists w',
    proceed_command fuel 9 fd w = OutOfFuel w' /\
    speed_divisor (tasflags w') = 0 /\
    running (tasflags w') = running (tasflags w) /\
    sock_log w' = sock_log w ++ [Sent fd [x09; x00; x00; x00]].
Proof.
  intros Hin Hz Hn. rewrite set_divisor_run.
  destruct (speed_divisor_loop_never_ends zeros fuel (divisor_reset fd w)
              rest Hin Hz Hn eq_refl) as (w' & -> & Hd & Hr & Hl).
  exists w'. repeat split; assumption.
Qed.

(** *** Opcodes 10 and 11 *)

Lemma filename_step (prompt : string) (command fd : Z) (w : world) {A}
    (k : io A) :
  filename_fits w = true ->
  (printf prompt;;
   r <- scanf_s (map (stack_junk w) (seq 0 1024));;
   send fd (snd r);; k) (opcode_sent command fd w) =
  k (filename_taken prompt command fd w).
Proof.
  intros Hfit. unfold filename_fits in Hfit.
  unfold filename_taken, filename_read, bind, printf, scanf_s, send, modify.
  unfold opcode_sent. fields.
  destruct (stdin w) as [|t rest]; fields; [reflexivity|].
  rewrite length_map, length_seq, Hfit. reflexivity.
Qed.

Lemma save_run (fuel : nat) (fd : Z) (w : world) :
  filename_fits w = true ->
  proceed_command fuel 10 fd w =
    match first_frame_loop fuel 0
            (filename_taken "Enter filename to save inputs in: " 10 fd w) with
    | Done first_frame w4 =>
        Done 0 (set_sock (sock_in w4)
                  (sock_log w4 ++ [Sent fd (le_encode 8 first_frame)]) w4)
    | OutOfFuel w4 => OutOfFuel w4
    | Undefined => Undefined
    end.
Proof.
  intros Hfit. rewrite after_opcode by reflexivity. cbv iota beta.
  unfold bind at 1.
  rewrite (filename_step _ 10 fd w _ Hfit).
  unfold bind, send, modify, ret.
  destruct (first_frame_loop fuel 0 _); reflexivity.
Qed.

Lemma load_run (fuel : nat) (fd : Z) (w : world) :
  filename_fits w = true ->
  exists w',
    proceed_command fuel 11 fd w = Done 0 w' /\
    tasflags w' = tasflags w /\ frame_counter w' = frame_counter w /\
    keyboard_state w' = keyboard_state w /\
    stdin w' = tl (stdin w) /\
    sock_log w' =
      sock_log w ++ [Sent fd [x0b; x00; x00; x00]; Sent fd (filename_read w);
                     Received fd 1 (take 1 (arriving w))] /\
    stdout w' =
      stdout w ++
      "Enter filename from which to load inputs: "%string ::
      (if Z_of_byte (answer_read w) =? 0
       then [("libTAS couldn’t load inputs." ++ nl)%string]
       else []).
Proof.
  intros Hfit. rewrite after_opcode by reflexivity. cbv iota beta.
  unfold bind at 1.
  rewrite (filename_step _ 11 fd w _ Hfit).
  set (w3 := filename_taken _ 11 fd w).
  assert (H3 : tasflags w3 = tasflags w /\ frame_counter w3 = frame_counter w /\
               keyboard_state w3 = keyboard_state w /\
               stdin w3 = tl (stdin w) /\ sock_in w3 = sock_in w /\
               sock_log w3 = sock_log w ++ [Sent fd [x0b; x00; x00; x00];
                                            Sent fd (filename_read w)] /\
               stdout w3 = stdout w ++
                 ["Enter filename from which to load inputs: "%string] /\
               stack_junk w3 = stack_junk w).
  { subst w3. unfold filename_taken, opcode_sent.
    destruct (stdin w) eqn:Es; fields; rewrite <- app_assoc, ?Es;
      repeat split. }
  destruct H3 as (Ht & Hc & Hk & Hs & Hi & Hl & Ho & Hj).
  assert (Hans : forall got, got = take 1 (arriving w) ->
            le_decode (overwrite [stack_junk w 1024%nat] got) =
            Z_of_byte (answer_read w)).
  { intros got ->. unfold answer_read.
    destruct (arriving w) as [|b more]; unfold overwrite; simpl;
      now rewrite Z.mul_0_r, Z.add_0_r. }
  unfold bind, recv, ret, printf, modify.
  assert (Hrecv : exists w4,
            match sock_in w3 with
            | [] => Done [] (set_sock [] (sock_log w3 ++ [Received fd 1 []]) w3)
            | chunk :: rest =>
                Done (take 1 chunk)
                  (set_sock match drop 1 chunk with
                            | [] => rest
                            | more => more :: rest
                            end
                     (sock_log w3 ++ [Received fd 1 (take 1 chunk)]) w3)
            end = Done (take 1 (arriving w)) w4 /\
            tasflags w4 = tasflags w /\ frame_counter w4 = frame_counter w /\
            keyboard_state w4 = keyboard_state w /\
            stdin w4 = tl (stdin w) /\ stdout w4 = stdout w3 /\
            sock_log w4 = sock_log w3 ++ [Received fd 1 (take 1 (arriving w))]).
  { unfold arriving. rewrite Hi.
    destruct (sock_in w) as [|chunk rest]; eexists;
      (split; [reflexivity|]); fields; repeat split; assumption. }
  destruct Hrecv as (w4 & -> & Ht4 & Hc4 & Hk4 & Hs4 & Ho4 & Hl4).
  rewrite (Hans _ eq_refl).
  destruct (Z_of_byte (answer_read w) =? 0); eexists;
    (split; [reflexivity|]); fields; rewrite ?Ho4, ?Ho, ?Hl4, ?Hl;
    rewrite <- ?app_assoc; repeat split; assumption.
Qed.

(** X22: whatever the reply, opcode 11 changes no global: it reads one
    word, sends the opcode and the filename buffer and asks for one byte.
    The byte only decides whether the complaint is printed; when none
    arrives, the uninitialised stack byte decides. *)
Theorem load_reply_only_decides_the_complaint
    (fuel : nat) (fd : Z) (w : world) :
  filename_fits w = true ->
  exists w',
    proceed_command fuel 11 fd w = Done 0 w' /\
    tasflags w' = tasflags w /\ frame_counter w' = frame_counter w /\
    keyboard_state w' = keyboard_state w /\
    stdin w' = tl (stdin w) /\
    sock_log w' =
      sock_log w ++ [Sent fd [x0b; x00; x00; x00]; Sent fd (filename_read w);
                     Received fd 1 (take 1 (arriving w))] /\
    stdout w' =
      stdout w ++
      "Enter filename from which to load inputs: "%string ::
      (if Z_of_byte (answer_read w) =? 0
       then [("libTAS couldn’t load inputs." ++ nl)%string]
       else []).
Proof. apply load_run. Qed.

Lemma filename_taken_fields (prompt : string) (command fd : Z) (w : world) :
  let w3 := filename_taken prompt command fd w in
  tasflags w3 = tasflags w /\ frame_counter w3 = frame_counter w /\
  keyboard_state w3 = keyboard_state w /\ stdin w3 = tl (stdin w) /\
  sock_in w3 = sock_in w /\
  sock_log w3 = sock_log w ++ [Sent fd (le_encode 4 command);
                               Sent fd (filename_read w)] /\
  stdout w3 = stdout w ++ [prompt].
Proof.
  unfold filename_taken, opcode_sent.
  destruct (stdin w) eqn:Es; fields; rewrite <- app_assoc, ?Es; repeat split.
Qed.

Lemma first_frame_number (fuel : nat) (first_frame : Z) (w : world)
    (t : word) (v : Z) (rest : list word) :
  stdin w = t :: rest -> as_ulong t = Some v ->
  first_frame_loop (S fuel) first_frame w =
    Done (to_ulong v)
      (set_stdin rest
         (set_stdout (stdout w ++ ["Enter first frame to record: "%string]) w)).
Proof.
  intros Hin Ev. cbn [first_frame_loop].
  unfold bind, printf, scanf_num, modify, ret. fields.
  now rewrite Hin, Ev.
Qed.

Lemma first_frame_eof (fuel : nat) (first_frame : Z) (w : world) :
  stdin w = [] ->
  first_frame_loop (S fuel) first_frame w =
    Done first_frame
      (set_stdout (stdout w ++ ["Enter first frame to record: "%string]) w).
Proof.
  intros Hin. cbn [first_frame_loop].
  unfold bind, printf, scanf_num, modify, ret. fields.
  now rewrite Hin.
Qed.

Lemma first_frame_stuck (fuel : nat) :
  forall (first_frame : Z) (w : world),
    not_a_frame (stdin w) = true ->
    exists w',
      first_frame_loop fuel first_frame w = OutOfFuel w' /\
      stdin w' = stdin w /\ sock_log w' = sock_log w /\
      tasflags w' = tasflags w /\ frame_counter w' = frame_counter w.
Proof.
  induction fuel as [|fuel IH]; intros first_frame w Hn.
  - exists w. repeat split.
  - set (w1 := set_stdout
                 (stdout w ++ ["Enter first frame to record: "%string]) w).
    assert (E : first_frame_loop (S fuel) first_frame w =
                first_frame_loop fuel first_frame w1).
    { cbn [first_frame_loop].
      unfold bind, printf, scanf_num, modify, ret. fields.
      unfold not_a_frame in Hn. destruct (stdin w) as [|t rest];
        [discriminate|]. now destruct (as_ulong t). }
    rewrite E. destruct (IH first_frame w1 Hn) as (w' & E' & H).
    exists w'. split; [exact E'|exact H].
Qed.

Lemma first_frame_loop_defined (fuel : nat) :
  forall (first_frame : Z) (w : world),
    first_frame_loop fuel first_frame w <> Undefined.
Proof.
  induction fuel as [|fuel IH]; intros first_frame w; [discriminate|].
  cbn [first_frame_loop]. unfold bind, printf, scanf_num, modify, ret. fields.
  destruct (stdin w) as [|t rest]; fields; [discriminate|].
  destruct (as_ulong t); fields; [discriminate|]. apply IH.
Qed.

(** X9: with a filename that fits and a number typed after it, opcode 10
    sends the opcode, the 1024 bytes of the filename buffer and the number
    in 8 bytes, and completes; the flags and the frame counter are as
    before. *)
Theorem save_sends_name_and_frame
    (fuel : nat) (fd : Z) (w : world) (t : word) (v : Z) (rest : list word) :
  filename_fits w = true -> tl (stdin w) = t :: rest ->
  as_ulong t = Some v -> (0 < fuel)%nat ->
  exists w',
    proceed_command fuel 10 fd w = Done 0 w' /\
    sock_log w' =
      sock_log w ++ [Sent fd [x0a; x00; x00; x00]; Sent fd (filename_read w);
                     Sent fd (le_encode 8 (to_ulong v))] /\
    le_decode (le_encode 8 (to_ulong v)) = to_ulong v /\
    stdin w' = rest /\ tasflags w' = tasflags w /\
    frame_counter w' = frame_counter w.
Proof.
  intros Hfit Htl Ev Hf. rewrite (save_run fuel fd w Hfit).
  destruct (filename_taken_fields "Enter filename to save inputs in: " 10 fd w)
    as (Ht & Hc & _ & Hs & _ & Hl & _).
  rewrite Htl in Hs. destruct fuel as [|fuel]; [lia|].
  rewrite (first_frame_number fuel 0 _ t v rest Hs Ev).
  eexists. split; [reflexivity|]. fields. rewrite Hl, <- app_assoc.
  repeat split; try assumption.
  apply le_decode_encode_ulong. apply Z.mod_pos_bound. reflexivity.
Qed.

(** X10: at the end of input [scanf("%lu")] returns [EOF], which ends the
    loop: opcode 10 completes and sends the initial value 0 as the first
    frame. *)
Theorem save_at_end_of_input_sends_frame_0
    (fuel : nat) (fd : Z) (w : world) :
  filename_fits w = true -> tl (stdin w) = [] -> (0 < fuel)%nat ->
  exists w',
    proceed_command fuel 10 fd w = Done 0 w' /\
    sock_log w' =
      sock_log w ++ [Sent fd [x0a; x00; x00; x00]; Sent fd (filename_read w);
                     Sent fd [x00; x00; x00; x00; x00; x00; x00; x00]].
Proof.
  intros Hfit Htl Hf. rewrite (save_run fuel fd w Hfit).
  destruct (filename_taken_fields "Enter filename to save inputs in: " 10 fd w)
    as (_ & _ & _ & Hs & _ & Hl & _).
  rewrite Htl in Hs. destruct fuel as [|fuel]; [lia|].
  rewrite (first_frame_eof fuel 0 _ Hs).
  eexists. split; [reflexivity|]. fields. now rewrite Hl, <- app_assoc.
Qed.

(** X11: with a word that is not a number where the first frame is expected,
    [scanf("%lu")] returns 0 and leaves the word in the input: opcode 10
    never completes.  The opcode and the filename have been sent, the first
    frame never is. *)
Theorem save_never_ends_without_number (fuel : nat) (fd : Z) (w : world) :
  filename_fits w = true -> not_a_frame (tl (stdin w)) = true ->
  exists w',
    proceed_command fuel 10 fd w = OutOfFuel w' /\
    sock_log w' =
      sock_log w ++ [Sent fd [x0a; x00; x00; x00]; Sent fd (filename_read w)] /\
    stdin w' = tl (stdin w).
Proof.
  intros Hfit Hn. rewrite (save_run fuel fd w Hfit).
  destruct (filename_taken_fields "Enter filename to save inputs in: " 10 fd w)
    as (_ & _ & _ & Hs & _ & Hl & _).
  rewrite <- Hs in Hn.
  destruct (first_frame_stuck fuel 0 _ Hn) as (w' & -> & Hs' & Hl' & _).
  exists w'. split; [reflexivity|]. rewrite Hl', Hs', Hl, Hs. now split.
Qed.

(** X12: a filename of 1024 characters or more is written past the end of
    [filename_buffer] by [scanf("%s")], for opcode 10 as for opcode 11. *)
Theorem long_filename_overruns_buffer
    (fuel : nat) (command fd : Z) (w : world) (t : word) (rest : list word) :
  command = 10 \/ command = 11 ->
  stdin w = t :: rest -> (1024 <= length (text t))%nat ->
  proceed_command fuel command fd w = Undefined.
Proof.
  intros Hc Hin Hlen.
  destruct Hc as [-> | ->]; rewrite after_opcode by reflexivity;
    cbv iota beta; unfold bind, printf, scanf_s, modify, opcode_sent; fields;
    rewrite Hin, length_map, length_seq;
    now replace (length (text t) <? 1024)%nat with false
      by (symmetry; apply Nat.ltb_ge; lia).
Qed.

Lemma filename_read_layout (w : world) :
  filename_fits w = true ->
  filename_read w =
    match stdin w with
    | [] => map (stack_junk w) (seq 0 1024)
    | t :: _ =>
        text t ++ x00 ::
        map (stack_junk w)
            (seq (S (length (text t))) (1023 - length (text t)))
    end.
Proof.
  unfold filename_fits, filename_read.
  destruct (stdin w) as [|t rest]; [reflexivity|]. intros Hfit.
  apply Nat.ltb_lt in Hfit. unfold overwrite.
  rewrite <- app_assoc. cbn [app]. do 2 f_equal.
  rewrite length_app. cbn [length]. rewrite skipn_map, skipn_seq.
  do 2 f_equal; lia.
Qed.

(** X13: what opcodes 10 and 11 send after the opcode is the whole
    1024-byte [filename_buffer]: the typed word, a NUL, and then the bytes
    the uninitialised stack held; at the end of input, nothing but those
    bytes. *)
Theorem filename_is_followed_by_stack_bytes
    (fuel : nat) (command fd : Z) (w : world) :
  command = 10 \/ command = 11 -> filename_fits w = true ->
  match proceed_command fuel command fd w with
  | Done _ w' | OutOfFuel w' =>
      exists tail,
        sock_log w' =
          sock_log w ++
          Sent fd (le_encode 4 command) ::
          Sent fd match stdin w with
                  | [] => map (stack_junk w) (seq 0 1024)
                  | t :: _ =>
                      text t ++ x00 ::
                      map (stack_junk w)
                          (seq (S (length (text t)))
                               (1023 - length (text t)))
                  end :: tail
  | Undefined => False
  end.
Proof.
  intros Hc Hfit. rewrite <- (filename_read_layout w Hfit).
  destruct Hc as [-> | ->].
  - rewrite (save_run fuel fd w Hfit).
    destruct (filename_taken_fields "Enter filename to save inputs in: "
                10 fd w) as (_ & _ & _ & _ & _ & Hl & _).
    pose proof (keeps_first_frame_loop sock_log fuel 0
                  ltac:(reflexivity) ltac:(reflexivity)
                  (filename_taken "Enter filename to save inputs in: "
                     10 fd w)) as Hk.
    pose proof (first_frame_loop_defined fuel 0
                  (filename_taken "Enter filename to save inputs in: "
                     10 fd w)) as Hd.
    destruct (first_frame_loop fuel 0 _) as [ff w4|w4|];
      cbn [stops_with] in Hk.
    + eexists [_]. fields. rewrite Hk, Hl, <- app_assoc. reflexivity.
    + exists []. now rewrite Hk, Hl.
    + now apply Hd.
  - destruct (load_run fuel fd w Hfit) as (w' & -> & _ & _ & _ & _ & Hl & _).
    eexists [_]. exact Hl.
Qed.

(** *** The globals keep to their types *)

Lemma speed_divisor_loop_range (fuel : nat) :
  forall w : world,
    0 <= speed_divisor (tasflags w) < UINT_MOD ->
    match speed_divisor_loop fuel w with
    | Done _ w' | OutOfFuel w' => 0 <= speed_divisor (tasflags w') < UINT_MOD
    | Undefined => True
    end.
Proof.
  induction fuel as [|fuel IH]; intros w Hr; [exact Hr|].
  cbn [speed_divisor_loop].
  unfold bind, printf, scanf_num, gets, set_speed_divisor, modify, ret. fields.
  destruct (stdin w) as [|t rest]; fields.
  - destruct (speed_divisor (tasflags w) =? 0); [now apply IH|exact Hr].
  - destruct (as_int t) as [v|]; fields.
    + pose proof (to_uint_range v) as Hv.
      destruct (to_uint v =? 0); [now apply IH|exact Hv].
    + destruct (speed_divisor (tasflags w) =? 0); [now apply IH|exact Hr].
Qed.

Lemma proceed_command_counter_range (fuel : nat) (command fd : Z) (w : world) :
  0 <= frame_counter w < ULONG_MOD ->
  match proceed_command fuel command fd w with
  | Done _ w' | OutOfFuel w' => 0 <= frame_counter w' < ULONG_MOD
  | Undefined => True
  end.
Proof.
  intros Hr. destruct (Z.eq_dec command 8) as [->|Hne].
  - destruct (advance_run fuel fd w) as (w' & -> & Hc & _). rewrite Hc.
    pose proof (le_decode_range
                  (overwrite (le_encode 8 (frame_counter w))
                             (take 8 (arriving w)))) as Hd.
    rewrite length_overwrite in Hd
      by (rewrite length_le_encode, length_take; lia).
    now rewrite length_le_encode in Hd.
  - pose proof (proceed_command_keeps_counter fuel command fd Hne w) as Hk.
    destruct (proceed_command fuel command fd w); cbn [stops_with] in Hk;
      [| |exact I]; now rewrite Hk.
Qed.

Lemma proceed_command_divisor_range (fuel : nat) (command fd : Z) (w : world) :
  0 <= speed_divisor (tasflags w) < UINT_MOD ->
  match proceed_command fuel command fd w with
  | Done _ w' | OutOfFuel w' => 0 <= speed_divisor (tasflags w') < UINT_MOD
  | Undefined => True
  end.
Proof.
  intros Hr. destruct (Z.eq_dec command 9) as [->|Hne].
  - rewrite set_divisor_run.
    pose proof (speed_divisor_loop_range fuel (divisor_reset fd w)
                  ltac:(cbn; unfold UINT_MOD; lia)) as Hl.
    destruct (speed_divisor_loop fuel (divisor_reset fd w)); exact Hl.
  - pose proof (proceed_command_keeps_divisor fuel command fd Hne w) as Hk.
    destruct (proceed_command fuel command fd w); cbn [stops_with] in Hk;
      [| |exact I]; now rewrite Hk.
Qed.

(** X14: no command takes a global out of its C type: wherever a command
    stops, the frame counter still fits an [unsigned long], the divisor an
    [unsigned int], and the keyboard snapshot has its 32 bytes. *)
Theorem commands_keep_globals_well_typed
    (fuel : nat) (command fd : Z) (w : world) :
  well_typed w ->
  match proceed_command fuel command fd w with
  | Done _ w' | OutOfFuel w' => well_typed w'
  | Undefined => True
  end.
Proof.
  intros (Hc & Hd & Hk).
  pose proof (proceed_command_counter_range fuel command fd w Hc) as H1.
  pose proof (proceed_command_divisor_range fuel command fd w Hd) as H2.
  pose proof (proceed_command_keeps_devices fuel command fd w) as H3.
  destruct (proceed_command fuel command fd w); cbn [stops_with] in H3;
    [| |exact I]; injection H3 as Hk' _ _ _ _; unfold well_typed;
    rewrite Hk'; now repeat split.
Qed.

End CommandFacts.

(** ** More of the main loop *)

Section LoopFacts.
Import Controller Behaviour.

Ltac fields :=
  cbn [tasflags frame_counter keyboard_state hotkey_frameadvance
       hotkey_playpause stdin stdout sock_in sock_log x_events x_keyboard
       x_queries stack_junk set_tasflags set_frame_counter
       set_keyboard_state set_stdin set_stdout set_sock set_x fst snd
       running speed_divisor].

Lemma quiet_cons (w : world) (ev : XEvent) (evs : list XEvent) :
  quiet w (ev :: evs) = quiet w [ev] && quiet w evs.
Proof.
  unfold quiet. rewrite !(presses_cons _ ev evs).
  destruct (presses _ [ev]), (presses _ [ev]), (presses _ evs),
    (presses _ evs); reflexivity.
Qed.

Lemma handle_event_quiet (ev : XEvent) (command : Z) (w : world) :
  quiet w [ev] = true -> handle_event ev command w = Done command w.
Proof.
  destruct ev as [ks|]; [|reflexivity].
  unfold quiet, presses, existsb. rewrite !orb_false_r.
  intros H. apply andb_true_iff in H as [H1 H2].
  apply negb_true_iff in H1, H2.
  unfold handle_event, bind, gets, ret. now rewrite H1, H2.
Qed.

Lemma handle_events_quiet (evs : list XEvent) (command : Z) (w : world) :
  quiet w evs = true -> handle_events evs command w = Done command w.
Proof.
  induction evs as [|ev evs IH]; intros H; [reflexivity|].
  rewrite quiet_cons in H. apply andb_true_iff in H as [H1 H2].
  cbn [handle_events]. unfold bind.
  rewrite (handle_event_quiet ev command w H1). now apply IH.
Qed.

Lemma poll_unfold (command : Z) (w : world) :
  poll command w =
    (command' <- handle_events (hd [] (x_events w)) command;;
     r <- gets (fun w => running (tasflags w));;
     (if r =? 0 then ret tt else XQueryKeymap);;
     ret command') (events_taken w).
Proof.
  unfold poll, events_taken, bind at 1, pending_events.
  now destruct (x_events w).
Qed.

Lemma quiet_events_taken (w : world) (evs : list XEvent) :
  quiet (events_taken w) evs = quiet w evs.
Proof. unfold events_taken. now destruct (x_events w). Qed.

Lemma events_taken_fields (w : world) :
  same_but_events w (events_taken w) /\
  x_events (events_taken w) = tl (x_events w).
Proof.
  unfold events_taken, same_but_events.
  destruct (x_events w) eqn:E; fields; rewrite ?E; repeat split.
Qed.

Lemma poll_quiet (command : Z) (w : world) :
  quiet w (hd [] (x_events w)) = true ->
  poll command w =
    Done command
      (if running (tasflags w) =? 0 then events_taken w
       else queried (events_taken w)).
Proof.
  intros Hq. rewrite poll_unfold. unfold bind at 1.
  rewrite handle_events_quiet by now rewrite quiet_events_taken.
  unfold bind, gets, ret.
  destruct (events_taken_fields w) as ((Ht & _) & _). rewrite Ht.
  now destruct (running (tasflags w) =? 0).
Qed.

Lemma same_but_events_trans (w1 w2 w3 : world) :
  same_but_events w1 w2 -> same_but_events w2 w3 -> same_but_events w1 w3.
Proof.
  unfold same_but_events.
  intros (?&?&?&?&?&?&?&?&?&?&?&?) (?&?&?&?&?&?&?&?&?&?&?&?).
  repeat split; congruence.
Qed.

(** X15: a paused controller is inert.  With the running flag clear, the
    pending command 0 and no hotkey among the events, any number of
    iterations of the main loop only consumes the events: nothing is sent or
    received, nothing read or printed, and every global is as it was. *)
Theorem paused_controller_is_inert (n fuel : nat) (fd : Z) :
  forall w : world,
    running (tasflags w) = 0 ->
    Forall (fun evs => quiet w evs = true) (x_events w) ->
    exists w',
      main_loop n fuel 0 fd w = OutOfFuel w' /\
      same_but_events w w' /\ x_events w' = drop n (x_events w).
Proof.
  induction n as [|n IH]; intros w Hr Hq.
  - exists w. split; [reflexivity|]. split; [|reflexivity].
    unfold same_but_events. repeat split.
  - assert (Hhd : quiet w (hd [] (x_events w)) = true)
      by (destruct Hq; [reflexivity|assumption]).
    destruct (events_taken_fields w) as (Hs & He).
    assert (Hr1 : running (tasflags (events_taken w)) = 0)
      by (destruct Hs as (-> & _); exact Hr).
    assert (Hq1 : Forall (fun evs => quiet (events_taken w) evs = true)
                         (x_events (events_taken w))).
    { rewrite He. destruct Hq as [|evs later Hevs Hlater]; cbn [tl];
        [constructor|].
      eapply Forall_impl; [exact Hlater|]. intros a Ha.
      now rewrite quiet_events_taken. }
    destruct (IH (events_taken w) Hr1 Hq1) as (w' & E & Hs' & He').
    exists w'. split; [|split].
    + cbn [main_loop]. unfold bind at 1, main_iteration, bind at 1.
      rewrite (poll_quiet 0 w Hhd), Hr. cbn [Z.eqb].
      unfold dispatch, bind, proceed_command, gets, ret. cbn [Z.eqb].
      unfold next_command. rewrite Hr1. cbn [Z.eqb]. exact E.
    + eapply same_but_events_trans; eassumption.
    + rewrite He', He. destruct (x_events w); [|reflexivity].
      now destruct n.
Qed.

Lemma advance_full (fuel : nat) (fd : Z) (w : world) (r : list byte)
    (later : list (list byte)) :
  sock_in w = r :: later -> length r = 8%nat ->
  proceed_command fuel 8 fd w = Done 0 (advanced fd r later w).
Proof.
  intros Hin Hlen. unfold proceed_command, advanced.
  change (8 =? 0) with false. change (11 <? 8) with false. cbv iota beta.
  unfold bind, send, gets, modify, recv, ret. fields. rewrite Hin.
  rewrite take_ge, drop_ge by lia.
  rewrite overwrite_all by (rewrite length_le_encode; lia).
  rewrite <- !app_assoc. reflexivity.
Qed.

Lemma running_step_fields (fd : Z) (w : world) (r : list byte)
    (later : list (list byte)) :
  let w1 := advanced fd r later (queried (events_taken w)) in
  tasflags w1 = tasflags w /\ frame_counter w1 = le_decode r /\
  hotkey_frameadvance w1 = hotkey_frameadvance w /\
  hotkey_playpause w1 = hotkey_playpause w /\
  stdin w1 = stdin w /\ stdout w1 = stdout w /\
  sock_in w1 = later /\
  sock_log w1 =
    sock_log w ++ exchanges fd (x_keyboard w) (x_queries w) [r] /\
  x_events w1 = tl (x_events w) /\ x_keyboard w1 = x_keyboard w /\
  x_queries w1 = S (x_queries w).
Proof.
  unfold advanced, queried, events_taken, exchanges.
  destruct (x_events w) eqn:E; fields; rewrite ?E; repeat split.
Qed.

Lemma iteration_running_quiet (fuel : nat) (fd : Z) (w : world)
    (r : list byte) (later : list (list byte)) :
  running (tasflags w) <> 0 -> quiet w (hd [] (x_events w)) = true ->
  sock_in w = r :: later -> length r = 8%nat ->
  main_iteration fuel 8 fd w =
    Done (Some 8) (advanced fd r later (queried (events_taken w))).
Proof.
  intros Hr Hq Hin Hlen. unfold main_iteration, bind.
  rewrite (poll_quiet 8 w Hq).
  apply Z.eqb_neq in Hr. rewrite Hr.
  assert (Hin1 : sock_in (queried (events_taken w)) = r :: later).
  { unfold queried, events_taken. destruct (x_events w); exact Hin. }
  unfold dispatch, bind. rewrite (advance_full fuel fd _ r later Hin1 Hlen).
  change (0 =? 0) with true. cbv iota. unfold gets, ret, next_command.
  destruct (running_step_fields fd w r later) as (Ht & _). rewrite Ht, Hr.
  reflexivity.
Qed.

(** X16: a running controller that meets no hotkey takes one response per
    iteration.  With [n] complete 8-byte responses waiting on the socket,
    [n] iterations send opcode 8 and the keymap just queried [n] times,
    consume exactly those responses, and leave the last of them in the frame
    counter; the flags are as before. *)
Theorem running_controller_stores_each_response
    (fuel : nat) (fd : Z) (later : list (list byte))
    (responses : list (list byte)) :
  forall w : world,
    running (tasflags w) <> 0 ->
    Forall (fun evs => quiet w evs = true) (x_events w) ->
    sock_in w = responses ++ later ->
    Forall (fun r => length r = 8%nat) responses ->
    exists w',
      main_loop (length responses) fuel 8 fd w = OutOfFuel w' /\
      sock_in w' = later /\
      frame_counter w' =
        fold_left (fun _ r => le_decode r) responses (frame_counter w) /\
      sock_log w' =
        sock_log w ++ exchanges fd (x_keyboard w) (x_queries w) responses /\
      tasflags w' = tasflags w /\
      x_queries w' = (x_queries w + length responses)%nat.
Proof.
  induction responses as [|r rs IH]; intros w Hr Hq Hin Hlen.
  - exists w. cbn [length main_loop fold_left exchanges].
    rewrite app_nil_r, Nat.add_0_r. repeat split. exact Hin.
  - apply Forall_cons in Hlen as [Hlen Hlens].
    assert (Hhd : quiet w (hd [] (x_events w)) = true)
      by (destruct Hq; [reflexivity|assumption]).
    set (w1 := advanced fd r (rs ++ later) (queried (events_taken w))).
    destruct (running_step_fields fd w r (rs ++ later))
      as (Ht & Hc & Hfa & Hpp & _ & _ & Hi & Hl & He & Hk & Hx).
    fold w1 in Ht, Hc, Hfa, Hpp, Hi, Hl, He, Hk, Hx.
    assert (Hq1 : Forall (fun evs => quiet w1 evs = true) (x_events w1)).
    { rewrite He. destruct Hq as [|evs rest Hevs Hrest]; cbn [tl];
        [constructor|].
      eapply Forall_impl; [exact Hrest|]. intros a Ha.
      unfold quiet in *. now rewrite Hfa, Hpp. }
    destruct (IH w1 ltac:(now rewrite Ht) Hq1 Hi Hlens)
      as (w' & E & Hi' & Hc' & Hl' & Ht' & Hx').
    exists w'. split; [|repeat split].
    + cbn [length main_loop]. unfold bind at 1.
      now rewrite (iteration_running_quiet fuel fd w r (rs ++ later)
                     Hr Hhd Hin Hlen).
    + exact Hi'.
    + rewrite Hc', Hc. reflexivity.
    + rewrite Hl', Hl, Hk, Hx, <- app_assoc. reflexivity.
    + now rewrite Ht'.
    + rewrite Hx', Hx. cbn [length]. lia.
Qed.

Lemma iteration_from_main (fuel : nat) (fd command : Z) (w : world) :
  command = 0 \/ command = 8 ->
  exists c' w',
    main_iteration fuel command fd w = Done (Some c') w' /\
    (c' = 0 \/ c' = 8) /\
    stdin w' = stdin w /\ stdout w' = stdout w /\
    speed_divisor (tasflags w') = speed_divisor (tasflags w) /\
    log_grows fd w w'.
Proof.
  intros Hc. unfold main_iteration, bind.
  destruct (poll_run command w) as (w1 & -> & S1).
  destruct S1 as (_ & Hd & _ & _ & Hs & Ho & _ & Hl & _).
  assert (Hnext : forall w2, next_command w2 = 0 \/ next_command w2 = 8).
  { intros w2. unfold next_command. destruct (_ =? 0); [now left|now right]. }
  assert (Hdisp : dispatched command w = 0 \/ dispatched command w = 8).
  { unfold dispatched. destruct (presses _ _); [now right|exact Hc]. }
  destruct Hdisp as [-> | ->].
  - exists (next_command w1), w1. split; [reflexivity|].
    split; [apply Hnext|]. repeat split; try assumption.
    exists []. rewrite Hl, app_nil_r. split; [reflexivity|constructor].
  - destruct (advance_run fuel fd w1) as (w' & E & _ & Hl' & Ht' & _ & Hs' & Ho').
    exists (next_command w'), w'. unfold dispatch, bind. rewrite E.
    split; [reflexivity|]. split; [apply Hnext|].
    rewrite Hs', Ho', Ht'. repeat split; try assumption.
    eexists. rewrite Hl', Hl. split; [reflexivity|]. repeat constructor.
Qed.

(** X17: the main loop hands only 0 or 8 to [proceed_command].  At every
    head of the loop that a run from [main]'s entry (pending command 0)
    reaches, the pending command is 0 or 8, the command that the iteration
    passes on after the hotkeys is 0 or 8 as well, and up to there nothing
    has been read from the standard input or printed and the divisor is as
    at the entry: the cases 1 to 7 and 9 to 11 and the complaint about an
    unknown command are out of the loop's reach. *)
Theorem main_loop_only_advances
    (fuel : nat) (fd : Z) (start : world) (command : Z) (w : world) :
  loop_head fuel fd start command w ->
  (command = 0 \/ command = 8) /\
  (dispatched command w = 0 \/ dispatched command w = 8) /\
  (exists w1,
     poll command w = Done (dispatched command w) w1 /\
     main_iteration fuel command fd w =
       dispatch fuel (dispatched command w) fd w1) /\
  stdin w = stdin start /\ stdout w = stdout start /\
  speed_divisor (tasflags w) = speed_divisor (tasflags start).
Proof.
  intros H.
  assert (Hinv : (command = 0 \/ command = 8) /\
                 stdin w = stdin start /\ stdout w = stdout start /\
                 speed_divisor (tasflags w) = speed_divisor (tasflags start)).
  { induction H as [|c w c' w' _ IH E]; [now repeat split; try left|].
    destruct IH as (Hc & Hs & Ho & Hd).
    destruct (iteration_from_main fuel fd c w Hc)
      as (c2 & w2 & E2 & Hc2 & Hs2 & Ho2 & Hd2 & _).
    rewrite E in E2. injection E2 as <- <-.
    repeat split; congruence. }
  destruct Hinv as (Hc & Hs & Ho & Hd).
  split; [exact Hc|]. split.
  { unfold dispatched. destruct (presses _ _); [now right|exact Hc]. }
  split; [|now repeat split].
  destruct (poll_run command w) as (w1 & E1 & _).
  exists w1. split; [exact E1|]. unfold main_iteration, bind. now rewrite E1.
Qed.

Lemma handle_events_app (a b : list XEvent) :
  forall (command : Z) (w : world),
    handle_events (a ++ b) command w =
      match handle_events a command w with
      | Done c w' => handle_events b c w'
      | OutOfFuel w' => OutOfFuel w'
      | Undefined => Undefined
      end.
Proof.
  induction a as [|ev a IH]; intros command w; [reflexivity|].
  cbn [app handle_events]. unfold bind.
  destruct (handle_event_run ev command w) as (w1 & -> & _). apply IH.
Qed.

Lemma handle_events_one_toggle (pre post : list XEvent) (command : Z)
    (w : world) :
  quiet w pre = true -> quiet w post = true ->
  hotkey_playpause w <> hotkey_frameadvance w ->
  handle_events (pre ++ KeyPress (hotkey_playpause w) :: post) command w =
    Done command (toggled w).
Proof.
  intros Hpre Hpost Hne.
  rewrite handle_events_app, (handle_events_quiet pre command w Hpre).
  cbn [handle_events]. unfold bind at 1.
  assert (E : handle_event (KeyPress (hotkey_playpause w)) command w =
              Done command (toggled w)).
  { unfold handle_event, bind, gets, ret, toggle_running, modify.
    apply Z.eqb_neq in Hne. rewrite Hne, Z.eqb_refl. reflexivity. }
  rewrite E. now apply handle_events_quiet.
Qed.

Lemma poll_one_toggle (pre post : list XEvent) (command : Z) (w : world) :
  hd [] (x_events w) = pre ++ KeyPress (hotkey_playpause w) :: post ->
  quiet w pre = true -> quiet w post = true ->
  hotkey_playpause w <> hotkey_frameadvance w ->
  poll command w =
    Done command
      (if lnot (running (tasflags w)) =? 0 then toggled (events_taken w)
       else queried (toggled (events_taken w))).
Proof.
  intros Hev Hpre Hpost Hne. rewrite poll_unfold, Hev. unfold bind at 1.
  destruct (events_taken_fields w) as ((Ht & _ & _ & Hfa & Hpp & _) & _).
  rewrite <- Hpp.
  rewrite handle_events_one_toggle
    by (rewrite ?quiet_events_taken; congruence).
  unfold bind, gets, ret, toggled. fields. rewrite Ht.
  now destruct (lnot (running (tasflags w)) =? 0).
Qed.

(** X18: pausing costs one more frame.  In the iteration that meets the
    play/pause hotkey while running, the flag is cleared before the keyboard
    is queried, but the pending command is still 8: the iteration sends
    opcode 8 with the snapshot of the iteration before, and only the next
    one is idle. *)
Theorem pausing_sends_one_more_advance
    (fuel : nat) (fd : Z) (w : world) (pre post : list XEvent) :
  running (tasflags w) <> 0 ->
  hd [] (x_events w) = pre ++ KeyPress (hotkey_playpause w) :: post ->
  quiet w pre = true -> quiet w post = true ->
  hotkey_playpause w <> hotkey_frameadvance w ->
  exists w',
    main_iteration fuel 8 fd w = Done (Some 0) w' /\
    running (tasflags w') = 0 /\
    keyboard_state w' = keyboard_state w /\
    sock_log w' =
      sock_log w ++ [Sent fd [x08; x00; x00; x00]; Sent fd (keyboard_state w);
                     Received fd 8 (take 8 (arriving w))].
Proof.
  intros Hr Hev Hpre Hpost Hne. unfold main_iteration, bind.
  rewrite (poll_one_toggle pre post 8 w Hev Hpre Hpost Hne).
  assert (Hl0 : lnot (running (tasflags w)) = 0)
    by (unfold lnot; apply Z.eqb_neq in Hr; now rewrite Hr).
  rewrite Hl0. change (0 =? 0) with true. cbv iota.
  set (w1 := toggled (events_taken w)).
  destruct (events_taken_fields w)
    as ((Ht & _ & Hk & _ & _ & _ & _ & Hi & Hl & _) & _).
  assert (H1 : running (tasflags w1) = 0 /\
               keyboard_state w1 = keyboard_state w /\
               sock_log w1 = sock_log w /\ arriving w1 = arriving w).
  { subst w1. unfold toggled, arriving. fields. rewrite Ht, Hi.
    now repeat split. }
  destruct H1 as (Hr1 & Hk1 & Hl1 & Ha1).
  destruct (advance_run fuel fd w1) as (w' & E & _ & Hl' & Ht' & Hk' & _).
  exists w'. unfold dispatch, bind. rewrite E.
  change (0 =? 0) with true. cbv iota. unfold gets, ret, next_command.
  rewrite Ht', Hr1. change (0 =? 0) with true. cbv iota.
  split; [reflexivity|]. rewrite Hk', Hl', Hk1, Hl1, Ha1. now repeat split.
Qed.

(** X19: resuming sends nothing at once.  In the iteration that meets the
    play/pause hotkey while paused, the flag is set and the keyboard
    queried, but the pending command is still 0: nothing goes over the
    socket, and the command for the next iteration is 8. *)
Theorem resuming_advances_one_iteration_later
    (fuel : nat) (fd : Z) (w : world) (pre post : list XEvent) :
  running (tasflags w) = 0 ->
  hd [] (x_events w) = pre ++ KeyPress (hotkey_playpause w) :: post ->
  quiet w pre = true -> quiet w post = true ->
  hotkey_playpause w <> hotkey_frameadvance w ->
  exists w',
    main_iteration fuel 0 fd w = Done (Some 8) w' /\
    running (tasflags w') = 1 /\
    keyboard_state w' = map (x_keyboard w (x_queries w)) (seq 0 32) /\
    sock_log w' = sock_log w /\ sock_in w' = sock_in w /\
    frame_counter w' = frame_counter w.
Proof.
  intros Hr Hev Hpre Hpost Hne. unfold main_iteration, bind.
  rewrite (poll_one_toggle pre post 0 w Hev Hpre Hpost Hne).
  rewrite Hr. change (lnot 0 =? 0) with false. cbv iota.
  set (w1 := queried (toggled (events_taken w))).
  destruct (events_taken_fields w)
    as ((Ht & Hc & _ & _ & _ & _ & _ & Hi & Hl & Hxk & Hxq & _) & _).
  assert (H1 : running (tasflags w1) = 1 /\
               keyboard_state w1 =
                 map (x_keyboard w (x_queries w)) (seq 0 32) /\
               sock_log w1 = sock_log w /\ sock_in w1 = sock_in w /\
               frame_counter w1 = frame_counter w).
  { subst w1. unfold queried, toggled. fields.
    rewrite Ht, Hr, Hxk, Hxq, Hl, Hi, Hc. now repeat split. }
  exists w1. split; [|exact H1].
  unfold dispatch, bind, proceed_command, gets, ret, next_command.
  change (0 =? 0) with true. cbv beta iota.
  change (0 =? 0) with true. cbv beta iota.
  destruct H1 as (-> & _). reflexivity.
Qed.

Lemma poll_one_advance_key (pre post : list XEvent) (command : Z)
    (w : world) :
  running (tasflags w) = 0 ->
  hd [] (x_events w) = pre ++ KeyPress (hotkey_frameadvance w) :: post ->
  quiet w pre = true -> quiet w post = true ->
  hotkey_frameadvance w <> hotkey_playpause w ->
  poll command w = Done 8 (queried (events_taken w)).
Proof.
  intros Hr Hev Hpre Hpost Hne. rewrite poll_unfold, Hev. unfold bind at 1.
  destruct (events_taken_fields w) as ((Ht & _ & _ & Hfa & Hpp & _) & _).
  set (w0 := events_taken w) in *.
  rewrite handle_events_app,
    (handle_events_quiet pre command w0)
    by (subst w0; now rewrite quiet_events_taken).
  cbn [handle_events]. unfold bind at 1.
  assert (E : handle_event (KeyPress (hotkey_frameadvance w)) command w0 =
              Done 8 (queried w0)).
  { unfold handle_event, bind, gets, ret, XQueryKeymap, modify. cbv beta.
    rewrite Hfa, Z.eqb_refl. cbv beta iota. fields. rewrite Hpp.
    apply Z.eqb_neq in Hne. now rewrite Hne. }
  rewrite E.
  rewrite handle_events_quiet
    by (unfold quiet, queried; fields; rewrite Hfa, Hpp; exact Hpost).
  unfold bind, gets, ret, queried. fields. now rewrite Ht, Hr.
Qed.

(** X20: single-stepping.  The frame-advance hotkey met while paused makes
    this iteration send one opcode 8 with the keymap queried at the key
    press and take the response; the flag stays clear, so the next iteration
    starts idle again. *)
Theorem frame_advance_key_steps_once
    (fuel : nat) (fd : Z) (w : world) (pre post : list XEvent)
    (command : Z) :
  running (tasflags w) = 0 ->
  hd [] (x_events w) = pre ++ KeyPress (hotkey_frameadvance w) :: post ->
  quiet w pre = true -> quiet w post = true ->
  hotkey_frameadvance w <> hotkey_playpause w ->
  exists w',
    main_iteration fuel command fd w = Done (Some 0) w' /\
    running (tasflags w') = 0 /\
    sock_log w' =
      sock_log w ++ [Sent fd [x08; x00; x00; x00];
                     Sent fd (map (x_keyboard w (x_queries w)) (seq 0 32));
                     Received fd 8 (take 8 (arriving w))] /\
    x_queries w' = S (x_queries w).
Proof.
  intros Hr Hev Hpre Hpost Hne. unfold main_iteration, bind.
  rewrite (poll_one_advance_key pre post command w Hr Hev Hpre Hpost Hne).
  set (w1 := queried (events_taken w)).
  destruct (events_taken_fields w)
    as ((Ht & _ & _ & _ & _ & _ & _ & Hi & Hl & Hxk & Hxq & _) & _).
  assert (H1 : running (tasflags w1) = 0 /\
               keyboard_state w1 =
                 map (x_keyboard w (x_queries w)) (seq 0 32) /\
               sock_log w1 = sock_log w /\ arriving w1 = arriving w /\
               x_queries w1 = S (x_queries w)).
  { subst w1. unfold queried, arriving. fields.
    rewrite Ht, Hr, Hxk, Hxq, Hl, Hi. now repeat split. }
  destruct H1 as (Hr1 & Hk1 & Hl1 & Ha1 & Hq1).
  destruct (advance_run fuel fd w1) as (w' & E & _ & Hl' & Ht' & _).
  pose proof (proceed_command_keeps_devices fuel 8 fd w1) as Hdev.
  rewrite E in Hdev. cbn [stops_with] in Hdev.
  apply (f_equal snd) in Hdev. cbn [snd] in Hdev. rename Hdev into Hq'.
  exists w'. unfold dispatch, bind. rewrite E.
  change (0 =? 0) with true. cbv iota. unfold gets, ret, next_command.
  rewrite Ht', Hr1. change (0 =? 0) with true. cbv iota.
  split; [reflexivity|]. rewrite Hl', Hk1, Hl1, Ha1, Hq', Hq1.
  now repeat split.
Qed.

End LoopFacts.

(** ** [main] *)

Section StartupFacts.
Import Controller Behaviour Startup.

(** X21: [main] returns only on a failed setup, and never 0.  When it
    ends, either the display could not be opened, and it has exited with
    status 1 after the message on the standard error, the world untouched;
    or [connect] failed, and it has returned 1 after printing its two
    lines.  In both cases nothing has been sent or received. *)
Theorem main_ends_only_on_failed_setup
    (s : startup) (iterations fuel : nat) (w : world) (e : ending)
    (w' : world) :
  main s iterations fuel w = Done e w' ->
  (display_opens s = false /\
   e = Exit 1 ("Cannot open display" ++ nl) /\ w' = w) \/
  (display_opens s = true /\ connect_returns s <> 0 /\ e = Return 1 /\
   w' = set_stdout
          (stdout w ++ [("Connecting to libTAS..." ++ nl)%string;
                        ("Couldn’t connect to socket." ++ nl)%string]) w).
Proof.
  unfold main. destruct (display_opens s).
  - destruct (connect_returns s =? 0) eqn:Ec.
    + unfold bind at 1 2 3 4, printf, modify. unfold bind.
      match goal with
      | |- context [main_loop iterations fuel 0 (socket_returns s) ?x] =>
          pose proof (main_loop_never_returns iterations fuel 0
                        (socket_returns s) x) as Hnever;
          destruct (main_loop iterations fuel 0 (socket_returns s) x)
            as [rc w2|w2|]
      end; [|discriminate|discriminate].
      now destruct (Hnever rc w2).
    + intros [= <- <-]. right. apply Z.eqb_neq in Ec.
      repeat split; try assumption.
      unfold set_stdout. cbn [stdout]. now rewrite <- app_assoc.
  - intros [= <- <-]. left. now repeat split.
Qed.

End StartupFacts.

(** ** The further statements at concrete worlds *)

Section MoreExamples.
Import Controller Behaviour Startup Samples MoreSamples.

Lemma running_flag_changes_only_on_toggle_witness :
  8 <> 7 /\
  stops_with (fun w => running (tasflags w))
             (proceed_command 1 8 3 w_answered) 0.
Proof.
  split; [discriminate|].
  exact (running_flag_changes_only_on_toggle 1 8 3 ltac:(discriminate)
           w_answered).
Defined.

Lemma divisor_changes_only_on_set_divisor_witness :
  7 <> 9 /\
  stops_with (fun w => speed_divisor (tasflags w))
             (proceed_command 1 7 3 w0) 1.
Proof.
  split; [discriminate|].
  exact (divisor_changes_only_on_set_divisor 1 7 3 ltac:(discriminate) w0).
Defined.

Lemma plain_commands_only_send_opcode_witness :
  1 <= 3 <= 6 /\
  proceed_command 1 3 3 w0 =
    Done 0 (set_sock [] [Sent 3 [x03; x00; x00; x00]] w0).
Proof.
  split; [lia|].
  exact (plain_commands_only_send_opcode 1 3 3 w0 ltac:(lia)).
Defined.

Lemma toggle_twice_restores_witness :
  exists w1 w2,
    proceed_command 1 7 3 w0 = Done 0 w1 /\
    proceed_command 1 7 3 w1 = Done 0 w2 /\
    (running (tasflags w1) =? 0) = false /\ tasflags w2 = tasflags w0.
Proof.
  destruct (toggle_twice_restores 1 3 w0)
    as (w1 & w2 & E1 & E2 & H1 & _ & H2 & _).
  exists w1, w2. split; [exact E1|]. split; [exact E2|].
  split; [exact H1|apply H2; left; reflexivity].
Defined.

Lemma opcode_goes_first_witness :
  1 <= 9 <= 11 /\
  match proceed_command 3 9 3 w_typing with
  | Done _ w' | OutOfFuel w' =>
      exists tail,
        sock_log w' = sock_log w_typing ++ Sent 3 (le_encode 4 9) :: tail /\
        Forall (on_socket 3) tail
  | Undefined => True
  end.
Proof.
  split; [lia|].
  pose proof (opcode_goes_first 3 9 3 w_typing) as H.
  assert (H9 : 1 <= 9 <= 11) by lia.
  specialize (H H9). destruct H as [_ H]. exact H.
Defined.

Lemma short_response_overwrites_low_bytes_witness :
  0 <= frame_counter w_short < ULONG_MOD /\
  exists w',
    proceed_command 1 8 3 w_short = Done 0 w' /\
    frame_counter w' = 2 ^ 63 + 513.
Proof.
  assert (Hr : 0 <= frame_counter w_short < ULONG_MOD)
    by (unfold ULONG_MOD; cbn; lia).
  split; [exact Hr|].
  destruct (short_response_overwrites_low_bytes 1 3 w_short Hr)
    as (w' & E & Hc).
  exists w'. split; [exact E|]. rewrite Hc. reflexivity.
Defined.

Lemma set_divisor_never_ends_without_number_witness :
  exists w',
    proceed_command 50 9 3 w_not_a_number = OutOfFuel w' /\
    speed_divisor (tasflags w') = 0 /\
    sock_log w' = [Sent 3 [x09; x00; x00; x00]].
Proof.
  destruct (set_divisor_never_ends_without_number 50 3 w_not_a_number
              [typed [x30] 0] [mkWord [x61; x62; x63] None None]
              eq_refl eq_refl eq_refl) as (w' & E & Hd & _ & Hl).
  exists w'. repeat split; assumption.
Defined.

Lemma save_sends_name_and_frame_witness :
  filename_fits w_save = true /\
  exists w',
    proceed_command 1 10 3 w_save = Done 0 w' /\
    sock_log w' =
      [Sent 3 [x0a; x00; x00; x00]; Sent 3 (filename_read w_save);
       Sent 3 (le_encode 8 5)] /\
    stdin w' = [].
Proof.
  split; [reflexivity|].
  destruct (save_sends_name_and_frame 1 3 w_save (typed [x35] 5) 5 []
              eq_refl eq_refl eq_refl ltac:(lia))
    as (w' & E & Hl & _ & Hs & _).
  exists w'. repeat split; assumption.
Defined.

Lemma save_at_end_of_input_sends_frame_0_witness :
  tl (stdin w_load) = [] /\
  exists w',
    proceed_command 1 10 3 w_load = Done 0 w' /\
    sock_log w' =
      [Sent 3 [x0a; x00; x00; x00]; Sent 3 (filename_read w_load);
       Sent 3 [x00; x00; x00; x00; x00; x00; x00; x00]].
Proof.
  split; [reflexivity|].
  exact (save_at_end_of_input_sends_frame_0 1 3 w_load eq_refl eq_refl
           ltac:(lia)).
Defined.

Lemma save_never_ends_without_number_witness :
  not_a_frame (tl (stdin w_save_stuck)) = true /\
  exists w',
    proceed_command 50 10 3 w_save_stuck = OutOfFuel w' /\
    sock_log w' =
      [Sent 3 [x0a; x00; x00; x00]; Sent 3 (filename_read w_save_stuck)].
Proof.
  split; [reflexivity|].
  destruct (save_never_ends_without_number 50 3 w_save_stuck eq_refl eq_refl)
    as (w' & E & Hl & _).
  exists w'. split; assumption.
Defined.

Lemma long_filename_overruns_buffer_witness :
  (1024 <= length (repeat x61 1024))%nat /\
  proceed_command 1 11 3 w_long_name = Undefined.
Proof.
  assert (H : (1024 <= length (repeat x61 1024))%nat)
    by (rewrite repeat_length; lia).
  split; [exact H|].
  exact (long_filename_overruns_buffer 1 11 3 w_long_name
           (mkWord (repeat x61 1024) None None) [] (or_intror eq_refl)
           eq_refl H).
Defined.

Lemma filename_is_followed_by_stack_bytes_witness :
  filename_fits w_load = true /\
  match proceed_command 1 11 3 w_load with
  | Done _ w' | OutOfFuel w' =>
      exists tail,
        sock_log w' =
          sock_log w_load ++
          Sent 3 (le_encode 4 11) ::
          Sent 3 ([x61; x62] ++ x00 :: map (fun _ => xff) (seq 3 1021)) :: tail
  | Undefined => False
  end.
Proof.
  split; [reflexivity|].
  pose proof (filename_is_followed_by_stack_bytes 1 11 3 w_load) as H.
  specialize (H (or_intror eq_refl) eq_refl). exact H.
Defined.

Lemma commands_keep_globals_well_typed_witness :
  well_typed w_answered /\
  exists w', proceed_command 1 8 3 w_answered = Done 0 w' /\ well_typed w'.
Proof.
  assert (H : well_typed w_answered).
  { unfold well_typed, ULONG_MOD, UINT_MOD. cbn. repeat split; lia. }
  split; [exact H|].
  pose proof (commands_keep_globals_well_typed 1 8 3 w_answered H) as H'.
  destruct (advance_run 1 3 w_answered) as (w' & E & _).
  rewrite E in H'. exists w'. split; assumption.
Defined.

Lemma load_reply_only_decides_the_complaint_witness :
  filename_fits w_load = true /\
  exists w',
    proceed_command 1 11 3 w_load = Done 0 w' /\
    tasflags w' = tasflags w_load /\
    length (stdout w') = 2%nat.
Proof.
  split; [reflexivity|].
  destruct (load_reply_only_decides_the_complaint 1 3 w_load eq_refl)
    as (w' & E & Ht & _ & _ & _ & _ & Ho).
  exists w'. split; [exact E|]. split; [exact Ht|]. now rewrite Ho.
Defined.

Lemma paused_controller_is_inert_witness :
  exists w',
    main_loop 3 1 0 3 w_idle_events = OutOfFuel w' /\
    sock_log w' = [] /\ tasflags w' = tasflags w_idle_events /\
    x_events w' = [].
Proof.
  destruct (paused_controller_is_inert 3 1 3 w_idle_events eq_refl
              ltac:(repeat constructor))
    as (w' & E & (Ht & _ & _ & _ & _ & _ & _ & _ & Hl & _) & He).
  exists w'. repeat split; assumption.
Defined.

Lemma running_controller_stores_each_response_witness :
  exists w',
    main_loop 2 1 8 3 w_two_responses = OutOfFuel w' /\
    sock_in w' = [] /\ frame_counter w' = 2 /\
    length (sock_log w') = 6%nat.
Proof.
  destruct (running_controller_stores_each_response 1 3 []
              [[x01; x00; x00; x00; x00; x00; x00; x00];
               [x02; x00; x00; x00; x00; x00; x00; x00]]
              w_two_responses ltac:(discriminate) ltac:(constructor)
              eq_refl ltac:(repeat constructor))
    as (w' & E & Hi & Hc & Hl & _).
  exists w'. split; [exact E|]. split; [exact Hi|].
  split; [rewrite Hc; reflexivity|rewrite Hl; reflexivity].
Defined.

Lemma main_loop_only_advances_witness :
  loop_head 1 3 w_step_key 0 w_step_key /\
  dispatched 0 w_step_key = 8 /\
  exists w1,
    main_iteration 1 0 3 w_step_key = dispatch 1 8 3 w1.
Proof.
  assert (H : loop_head 1 3 w_step_key 0 w_step_key) by apply head_first.
  split; [exact H|]. split; [reflexivity|].
  pose proof (main_loop_only_advances 1 3 w_step_key 0 w_step_key H)
    as (_ & _ & (w1 & _ & E) & _).
  exists w1. exact E.
Defined.

Lemma pausing_sends_one_more_advance_witness :
  exists w',
    main_iteration 1 8 3 w_pause_key = Done (Some 0) w' /\
    running (tasflags w') = 0 /\
    sock_log w' = [Sent 3 [x08; x00; x00; x00]; Sent 3 (repeat x00 32);
                   Received 3 8 []].
Proof.
  destruct (pausing_sends_one_more_advance 1 3 w_pause_key [OtherEvent] []
              ltac:(discriminate) eq_refl eq_refl eq_refl
              ltac:(discriminate)) as (w' & E & Hr & _ & Hl).
  exists w'. repeat split; assumption.
Defined.

Lemma resuming_advances_one_iteration_later_witness :
  exists w',
    main_iteration 1 0 3 w_resume_key = Done (Some 8) w' /\
    running (tasflags w') = 1 /\ sock_log w' = [].
Proof.
  destruct (resuming_advances_one_iteration_later 1 3 w_resume_key [] []
              eq_refl eq_refl eq_refl eq_refl ltac:(discriminate))
    as (w' & E & Hr & _ & Hl & _).
  exists w'. repeat split; assumption.
Defined.

Lemma frame_advance_key_steps_once_witness :
  exists w',
    main_iteration 1 0 3 w_step_key = Done (Some 0) w' /\
    running (tasflags w') = 0 /\ length (sock_log w') = 3%nat.
Proof.
  destruct (frame_advance_key_steps_once 1 3 w_step_key [] [OtherEvent] 0
              eq_refl eq_refl eq_refl eq_refl ltac:(discriminate))
    as (w' & E & Hr & Hl & _).
  exists w'. split; [exact E|]. split; [exact Hr|]. now rewrite Hl.
Defined.

Lemma main_ends_only_on_failed_setup_witness :
  main s_no_display 5 1 w0 = Done (Exit 1 ("Cannot open display" ++ nl)) w0 /\
  display_opens s_no_display = false /\
  exists w',
    main s_refused 5 1 w0 = Done (Return 1) w' /\
    connect_returns s_refused <> 0 /\ sock_log w' = [].
Proof.
  assert (E : main s_no_display 5 1 w0 =
              Done (Exit 1 ("Cannot open display" ++ nl)) w0) by reflexivity.
  split; [exact E|]. split.
  - pose proof (main_ends_only_on_failed_setup s_no_display 5 1 w0 _ _ E)
      as [(H & _)|(H & _)]; [exact H|discriminate H].
  - eexists. split; [reflexivity|].
    pose proof (main_ends_only_on_failed_setup s_refused 5 1 w0 _ _ eq_refl)
      as [(H & _)|(_ & H & _ & ->)]; [discriminate H|].
    split; [exact H|reflexivity].
Defined.

Lemma short_response_changes_counter :
  length (arriving w_short) = 2%nat /\
  ~ (forall rc w',
       proceed_command 1 8 3 w_short = Done rc w' ->
       frame_counter w' = frame_counter w_short).
Proof.
  split; [reflexivity|]. intros H.
  specialize (H _ _ eq_refl). vm_compute in H. discriminate H.
Qed.

Lemma return_value_is_always_0_witness :
  proceed_command 1 7 3 w0 = Done 0 (toggled (opcode_sent 7 3 w0)) /\
  exists next,
    dispatch 1 7 3 w0 = Done (Some next) (toggled (opcode_sent 7 3 w0)).
Proof.
  split; [reflexivity|].
  pose proof (return_value_is_always_0 1 7 3 w0 0
                (toggled (opcode_sent 7 3 w0)) eq_refl) as H.
  destruct H as [_ H]. exact H.
Defined.

End MoreExamples.
